(** * pv_prognose_app: the synthetic forecast generator of [pv_app.py]

    A shallow embedding of [SimplePVForecast.forecast] and of the form
    handler that stores its result, together with the properties of the
    generated series.

    Conventions of the embedding.
    - A Python [float] (binary64) is embedded as the real number it denotes
      and the elementwise arithmetic on floats is taken without rounding
      error.  Constants are the values the source names: [np.pi] is the
      binary64 number 884279719003555 / 2^48, not the mathematical
      constant.
    - Sums of a column accumulate rounding errors over hundreds of
      additions: [Series.sum()] is a tree of rounded additions
      ([Series_sum]), and the module [binary64] runs numpy's summation on
      binary64 numbers.
    - A naive [datetime] is the number of microseconds since
      0001-01-01T00:00:00; [datetime] and [timedelta] arithmetic raises
      [OverflowError] outside the ranges of the Python types.
    - Exceptions are values of [result]; the process-wide random generator
      of numpy is threaded explicitly as a [RandomState]. *)

From Stdlib Require Import PrimFloat.
From Stdlib Require Import Reals Lra Lia ZArith NArith List Bool Machin.
From Stdlib Require Import Permutation.
From Stdlib Require String.
Import ListNotations.
Import String.StringSyntax.
Local Open Scope string_scope.
Local Open Scope list_scope.
Local Open Scope nat_scope.

Set Implicit Arguments.

(** ** Exceptions *)

Inductive exn : Type :=
| OverflowError
| ValueError.

Inductive result (A : Type) : Type :=
| Ok (a : A)
| Raise (e : exn).

Arguments Ok {A} a.
Arguments Raise {A} e.

Definition bind {A B : Type} (c : result A) (k : A -> result B) : result B :=
  match c with
  | Ok a => k a
  | Raise e => Raise e
  end.

Notation "x <- c ;; k" := (bind c (fun x => k))
  (at level 61, c at next level, right associativity).
Notation "' pat <- c ;; k" := (bind c (fun x => match x with pat => k end))
  (at level 61, pat pattern, c at next level, right associativity).

(** A list comprehension whose body may raise: the first exception
    aborts the whole comprehension. *)
Fixpoint mapM {A B : Type} (f : A -> result B) (l : list A) : result (list B) :=
  match l with
  | [] => Ok []
  | x :: xs => y <- f x ;; ys <- mapM f xs ;; Ok (y :: ys)
  end.

(** [range(n)] for a Python integer [n]: empty when [n <= 0]. *)
Definition range (n : Z) : list Z := map Z.of_nat (seq 0 (Z.to_nat n)).

(** ** datetime *)

Module Datetime.

Definition datetime : Type := Z.
Definition timedelta : Type := Z.

Definition us_per_hour : Z := 3600000000.
Definition us_per_day : Z := 86400000000.

(** [datetime.max] is 9999-12-31T23:59:59.999999, whose date has ordinal
    3652059. *)
Definition datetime_max : Z := 3652059 * us_per_day - 1.

(** [timedelta.min] and [timedelta.max]. *)
Definition timedelta_min : Z := - 999999999 * us_per_day.
Definition timedelta_max : Z := 1000000000 * us_per_day - 1.

Definition valid (t : datetime) : Prop := (0 <= t <= datetime_max)%Z.

(** [timedelta(hours=h)] *)
Definition timedelta_hours (h : Z) : result timedelta :=
  let us := (h * us_per_hour)%Z in
  if ((timedelta_min <=? us) && (us <=? timedelta_max))%Z
  then Ok us else Raise OverflowError.

(** [t + d] for a datetime [t] and a timedelta [d] *)
Definition add (t : datetime) (d : timedelta) : result datetime :=
  let r := (t + d)%Z in
  if ((0 <=? r) && (r <=? datetime_max))%Z
  then Ok r else Raise OverflowError.

End Datetime.

Import Datetime.

(** ** numpy *)

Module np.

Local Open Scope R_scope.

(** [np.pi], the binary64 number 0x400921FB54442D18. *)
Definition pi : R := 884279719003555 / 281474976710656.

Definition set_last (y : list R) (v : R) : list R := removelast y ++ [v].

(** [np.linspace(start, stop, num)] with the default [endpoint=True]:
    [arange(num) * step + start], the last sample overwritten by [stop]. *)
Definition linspace (start stop : R) (num : nat) : list R :=
  let div := (num - 1)%nat in
  let step := (stop - start) / INR div in
  let y := map (fun i => INR i * step + start) (seq 0 num) in
  if (1 <? num)%nat then set_last y stop else y.

Definition sin (a : list R) : list R := map Rtrigo_def.sin a.

Definition clip1 (x a_min a_max : R) : R := Rmin (Rmax x a_min) a_max.

(** [np.clip(a, a_min, a_max)] = [minimum(maximum(a, a_min), a_max)] *)
Definition clip (a : list R) (a_min a_max : R) : list R :=
  map (fun x => clip1 x a_min a_max) a.

(** scalar * array *)
Definition scale (c : R) (a : list R) : list R := map (Rmult c) a.

Fixpoint tile_nat (a : list R) (reps : nat) : list R :=
  match reps with
  | O => []
  | S k => a ++ tile_nat a k
  end.

(** [np.tile(a, reps)] for a one-dimensional [a] and an integer [reps];
    a negative repetition count is refused. *)
Definition tile (a : list R) (reps : Z) : result (list R) :=
  if (reps <? 0)%Z then Raise ValueError else Ok (tile_nat a (Z.to_nat reps)).

(** The generator behind [np.random]: an entropy tape and the number of
    words already consumed.  Each scalar draw consumes one word. *)
Record RandomState : Type := mkRandomState {
  tape : nat -> N;
  pos : nat
}.

Definition next_word (g : RandomState) : N * RandomState :=
  (tape g (pos g), mkRandomState (tape g) (S (pos g))).

(** [random_sample()]: a 53-bit integer divided by 2^53. *)
Definition random_sample (g : RandomState) : R * RandomState :=
  let (w, g') := next_word g in
  (IZR (Z.of_N (w mod 9007199254740992)) / 9007199254740992, g').

(** one integer of [randint(low, high)] *)
Definition randint1 (low high : Z) (g : RandomState) : Z * RandomState :=
  let (w, g') := next_word g in
  ((low + Z.of_N w mod (high - low))%Z, g').

(** one float of [uniform(low, high)]:
    [low + (high - low) * random_sample()] *)
Definition uniform1 (low high : R) (g : RandomState) : R * RandomState :=
  let (u, g') := random_sample g in
  (low + (high - low) * u, g').

Fixpoint draw {A : Type} (one : RandomState -> A * RandomState)
    (n : nat) (g : RandomState) : list A * RandomState :=
  match n with
  | O => ([], g)
  | S k =>
      let (x, g1) := one g in
      let (xs, g2) := draw one k g1 in
      (x :: xs, g2)
  end.

(** [np.random.randint(low, high, size)] *)
Definition randint (low high size : Z) (g : RandomState)
  : result (list Z * RandomState) :=
  if (high <=? low)%Z then Raise ValueError
  else if (size <? 0)%Z then Raise ValueError
  else Ok (draw (randint1 low high) (Z.to_nat size) g).

(** [np.random.uniform(low, high, size)] *)
Definition uniform (low high : R) (size : Z) (g : RandomState)
  : result (list R * RandomState) :=
  if (size <? 0)%Z then Raise ValueError
  else Ok (draw (uniform1 low high) (Z.to_nat size) g).

End np.


(** ** Sums of a column *)

(** The mathematical sum of a column.  The program never computes it:
    its sums are rounded, see [Series_sum]. *)
Definition exact_sum (a : list R) : R := fold_right Rplus 0%R a.

(** The unit roundoff of binary64, 2^-53. *)
Definition unit_roundoff : R := (/ 9007199254740992)%R.

(** A rounding to binary64 in the standard model of floating-point
    arithmetic: the relative error is at most the unit roundoff (sums of
    binary64 numbers do not underflow; overflow is out of range here). *)
Definition rounding (rnd : R -> R) : Prop :=
  forall x : R, (Rabs (rnd x - x) <= unit_roundoff * Rabs x)%R.

(** The results a binary64 summation of a non-empty column can return:
    the entries are combined by rounded additions, in any grouping and any
    order (left to right, numpy's pairwise blocks, ...). *)
Inductive float_sum (rnd : R -> R) : list R -> R -> Prop :=
| float_sum_one (x : R) : float_sum rnd [x] x
| float_sum_add (l1 l2 : list R) (s1 s2 : R) :
    float_sum rnd l1 s1 -> float_sum rnd l2 s2 ->
    float_sum rnd (l1 ++ l2) (rnd (s1 + s2)%R)
| float_sum_perm (l l' : list R) (s : R) :
    Permutation l l' -> float_sum rnd l s -> float_sum rnd l' s.

(** [Series.sum()]: 0 on an empty column, a rounded sum otherwise. *)
Definition Series_sum (rnd : R -> R) (a : list R) (s : R) : Prop :=
  match a with
  | [] => s = 0%R
  | _ :: _ => float_sum rnd a s
  end.

(** ** Summation on binary64 numbers *)

Module binary64.

(** [np.sin(np.linspace(0, np.pi, 24))]: the sines of the 24 samples,
    each rounded to the nearest binary64 number. *)
Definition sin_grid : list float :=
  [0x0.0p+0; 0x1.16de8a4564f0ap-3; 0x1.14459ad2be466p-2;
   0x1.97f6748e524b2p-2; 0x1.0a06e851db7cap-1; 0x1.431df5838f7efp-1;
   0x1.763021aaa15d9p-1; 0x1.a249e0b897ca9p-1; 0x1.c698e42f47b09p-1;
   0x1.e270060999287p-1; 0x1.f54a827142576p-1; 0x1.fece70dfd3efbp-1;
   0x1.fece70dfd3efbp-1; 0x1.f54a827142577p-1; 0x1.e270060999288p-1;
   0x1.c698e42f47b09p-1; 0x1.a249e0b897caap-1; 0x1.763021aaa15dbp-1;
   0x1.431df5838f7f1p-1; 0x1.0a06e851db7cdp-1; 0x1.97f6748e524b8p-2;
   0x1.14459ad2be466p-2; 0x1.16de8a4564f0cp-3; 0x1.1a62633145c07p-53]%float.

Definition clip1 (x a_min a_max : float) : float :=
  let y := if PrimFloat.ltb x a_min then a_min else x in
  if PrimFloat.ltb a_max y then a_max else y.

(** [capacity_kw * performance_ratio * np.clip(np.sin(...), 0, 1)] *)
Definition daily_power (capacity_kw performance_ratio : float) : list float :=
  map (fun x => PrimFloat.mul (PrimFloat.mul capacity_kw performance_ratio)
                  (clip1 x 0 1))
      sin_grid.

Fixpoint tile (a : list float) (reps : nat) : list float :=
  match reps with
  | O => []
  | S k => a ++ tile a k
  end.

(** [res += a[i]] over the entries, left to right. *)
Definition add_all (res : float) (a : list float) : float :=
  fold_left PrimFloat.add a res.

(** The eight running sums of numpy's unrolled loop. *)
Fixpoint add_lanes (r a : list float) : list float :=
  match r, a with
  | x :: r', y :: a' => PrimFloat.add x y :: add_lanes r' a'
  | _, _ => r
  end.

Fixpoint accumulate (r a : list float) (blocks : nat) : list float * list float :=
  match blocks with
  | O => (r, a)
  | S k => accumulate (add_lanes r (firstn 8 a)) (skipn 8 a) k
  end.

(** numpy's summation of [8 <= n <= 128] entries. *)
Definition block_sum (a : list float) : float :=
  let (r, rest) := accumulate (firstn 8 a) (skipn 8 a) (length a / 8 - 1) in
  match r with
  | [r0; r1; r2; r3; r4; r5; r6; r7] =>
      add_all (PrimFloat.add
                 (PrimFloat.add (PrimFloat.add r0 r1) (PrimFloat.add r2 r3))
                 (PrimFloat.add (PrimFloat.add r4 r5) (PrimFloat.add r6 r7)))
              rest
  | _ => add_all 0%float a
  end.

(** numpy's pairwise summation: fewer than 8 entries are added left to
    right, up to 128 entries go through eight running sums, longer
    columns are split in two at a multiple of 8.  [None] when the
    recursion depth [fuel] is used up. *)
Fixpoint pairwise_sum (fuel : nat) (a : list float) : option float :=
  let n := length a in
  if n <? 8 then Some (add_all 0%float a)
  else if n <=? 128 then Some (block_sum a)
  else
    match fuel with
    | O => None
    | S fuel' =>
        let n2 := n / 2 - (n / 2) mod 8 in
        match pairwise_sum fuel' (firstn n2 a),
              pairwise_sum fuel' (skipn n2 a) with
        | Some s1, Some s2 => Some (PrimFloat.add s1 s2)
        | _, _ => None
        end
    end.

(** [a.sum()] on a binary64 column. *)
Definition sum (a : list float) : option float := pairwise_sum (length a) a.

End binary64.

(** ** pandas *)

Record DataFrame : Type := mkDataFrame {
  time : list datetime;
  forecast_power_kw : list R;
  cloud_cover_percent : list Z;
  temperature_c : list R;
  DNI : list R;
  DHI : list R
}.

(** [pd.DataFrame({...})] from six columns: columns of different lengths
    are refused. *)
Definition DataFrame_of_columns (t : list datetime) (p : list R)
    (c : list Z) (tc dni dhi : list R) : result DataFrame :=
  let n := length t in
  if ((length p =? n) && (length c =? n) && (length tc =? n)
      && (length dni =? n) && (length dhi =? n))%nat
  then Ok (mkDataFrame t p c tc dni dhi)
  else Raise ValueError.

(** [len(df)] *)
Definition nrows (df : DataFrame) : nat := length (time df).

(** ** SimplePVForecast *)

Record SimplePVForecast : Type := mkSimplePVForecast {
  latitude : R;
  longitude : R;
  capacity_kw : R;
  mounting_type : String.string;
  performance_ratio : R
}.

(** [now + timedelta(hours=i)] *)
Definition time_at (now : datetime) (i : Z) : result datetime :=
  d <- timedelta_hours i ;; add now d.

(** The 24 values of [daily_power]. *)
Definition daily_power (self : SimplePVForecast) : list R :=
  np.scale (capacity_kw self * performance_ratio self)%R
        (np.clip (np.sin (np.linspace 0 np.pi 24)) 0 1).

(** [self.forecast(days)], run at the instant [now] with the generator
    state [g]; returns the frame and the generator state after the draws.
    Every exception is raised before the first draw. *)
Definition forecast (self : SimplePVForecast) (days : Z)
    (now : datetime) (g : np.RandomState) : result (DataFrame * np.RandomState) :=
  let hours := (days * 24)%Z in
  times <- mapM (time_at now) (range hours) ;;
  forecast_power <- np.tile (daily_power self) days ;;
  '(cloud, g1) <- np.randint 0 100 hours g ;;
  '(temperature, g2) <- np.uniform 0 30 hours g1 ;;
  '(dni, g3) <- np.uniform 0 1000 hours g2 ;;
  '(dhi, g4) <- np.uniform 0 500 hours g3 ;;
  df <- DataFrame_of_columns times forecast_power cloud temperature dni dhi ;;
  Ok (df, g4).

(** ** The form handler *)

Inductive message : Type :=
| Success
| Error (e : exn).

(** [st.session_state]: the key ["forecast"] is absent or holds a frame. *)
Definition session_state : Type := option DataFrame.

(** The block run when the form is submitted (the [try] statement). *)
Definition on_submit (lat lon : R) (capacity : Z) (mounting : String.string)
    (pr_percent : Z) (now : datetime) (g : np.RandomState) (st : session_state)
  : session_state * message * np.RandomState :=
  let model :=
    mkSimplePVForecast lat lon (IZR capacity) mounting (IZR pr_percent / 100) in
  match forecast model 14 now g with
  | Ok (df, g') => (Some df, Success, g')
  | Raise e => (st, Error e, g)
  end.

(** ** The series of a successful run, and a sample run *)

(** The frame and generator state that [forecast] returns when no
    exception is raised (see [forecast_ok] and [forecast_inv]). *)
Definition series (self : SimplePVForecast) (days : Z)
    (now : datetime) (g : np.RandomState) : DataFrame * np.RandomState :=
  let n := Z.to_nat (days * 24) in
  let (cloud, g1) := np.draw (np.randint1 0 100) n g in
  let (temperature, g2) := np.draw (np.uniform1 0 30) n g1 in
  let (dni, g3) := np.draw (np.uniform1 0 1000) n g2 in
  let (dhi, g4) := np.draw (np.uniform1 0 500) n g3 in
  (mkDataFrame
     (map (fun i => (now + i * us_per_hour)%Z) (range (days * 24)))
     (np.tile_nat (daily_power self) (Z.to_nat days))
     cloud temperature dni dhi, g4).

(** The angle of hour [h] on the grid [np.linspace(0, np.pi, 24)]. *)
Definition hour_angle (h : nat) : R := (INR h * (np.pi / 23))%R.

(** The form defaults: 48.2 N, 16.4 E, 10 kWp, flat roof, 85 %. *)
Definition example_plant : SimplePVForecast :=
  mkSimplePVForecast (482 / 10) (164 / 10) 10 "Flachdach" (85 / 100).

(** A 10 kWp plant entered with a negative capacity. *)
Definition negative_plant : SimplePVForecast :=
  mkSimplePVForecast (482 / 10) (164 / 10) (-10) "Fassade" (85 / 100).

(** 2026-11-05T09:00:00 *)
Definition example_now : datetime := 63929466000000000%Z.

(** 9999-12-31T12:00:00 *)
Definition late_now : datetime := 315537854400000000%Z.

Definition example_rng : np.RandomState :=
  np.mkRandomState
    (fun k => (N.of_nat k * N.of_nat k * 7919 + 13 * N.of_nat k + 5)%N) 0.

(** ** The statistics block of the page *)

(** [Series.max()]: NaN (here [None]) on an empty column.  Taking a
    maximum does not round. *)
Definition Series_max (a : list R) : option R :=
  match a with
  | [] => None
  | x :: xs => Some (fold_left Rmax xs x)
  end.

(** [Series.mean()] of an integer column: NaN (here [None]) on an empty
    column; the integer sum is exact and the final division is taken
    without rounding. *)
Definition Series_mean_int (a : list Z) : option R :=
  match a with
  | [] => None
  | _ :: _ => Some (IZR (fold_right Z.add 0%Z a) / INR (length a))%R
  end.

(** The metrics that do not depend on a rounded sum of floats: the
    maximal power, and the mean cloud cover with its complement to 100.
    The mean power and the total yield are sums of the power column, see
    [Series_sum]. *)
Record statistics : Type := mkStatistics {
  max_power : option R;
  cloud_avg : option R;
  sunny : option R
}.

Definition show_statistics (forecast : DataFrame) : statistics :=
  let cloud_avg := Series_mean_int (cloud_cover_percent forecast) in
  mkStatistics
    (Series_max (forecast_power_kw forecast))
    cloud_avg
    (option_map (fun c => 100 - c)%R cloud_avg).

(** The output section runs only when the key ["forecast"] is present. *)
Definition output_section (st : session_state) : option statistics :=
  option_map show_statistics st.

(** * Properties *)

(** ** Comprehensions and ranges *)

Section Comprehension.

Variables A B : Type.
Variable f : A -> result B.

Lemma mapM_total (g : A -> B) (l : list A) :
  (forall x, In x l -> f x = Ok (g x)) -> mapM f l = Ok (map g l).
Proof.
  induction l as [|x xs IH]; intros H; simpl; [reflexivity|].
  rewrite (H x (or_introl eq_refl)); simpl.
  rewrite IH by (intros y Hy; apply H; right; exact Hy).
  reflexivity.
Qed.

Lemma mapM_inv (l : list A) (l' : list B) :
  mapM f l = Ok l' -> Forall2 (fun x y => f x = Ok y) l l'.
Proof.
  revert l'; induction l as [|x xs IH]; intros l' H; simpl in H.
  - injection H as <-. constructor.
  - destruct (f x) as [y|e] eqn:Ex; simpl in H; [|discriminate].
    destruct (mapM f xs) as [ys|e] eqn:Exs; simpl in H; [|discriminate].
    injection H as <-. constructor; [exact Ex | apply IH; reflexivity].
Qed.

(** When every exception of the body is [e0], one failing element makes
    the comprehension raise [e0]. *)
Lemma mapM_raise (e0 : exn) (l : list A) (x : A) :
  (forall y e, f y = Raise e -> e = e0) ->
  In x l -> f x = Raise e0 -> mapM f l = Raise e0.
Proof.
  intros Huni; induction l as [|a xs IH]; intros Hin Hx; [destruct Hin|].
  simpl. destruct (f a) as [b|e] eqn:Ea; simpl.
  - destruct Hin as [->|Hin]; [congruence|].
    rewrite (IH Hin Hx). reflexivity.
  - rewrite (Huni _ _ Ea). reflexivity.
Qed.

End Comprehension.

Lemma range_length (n : Z) : length (range n) = Z.to_nat n.
Proof. unfold range. rewrite length_map, length_seq. reflexivity. Qed.

Lemma range_In (n i : Z) : In i (range n) <-> (0 <= i < n)%Z.
Proof.
  unfold range. rewrite in_map_iff. split.
  - intros [k [<- Hk]]. apply in_seq in Hk. lia.
  - intros Hi. exists (Z.to_nat i). split; [lia|]. apply in_seq. lia.
Qed.

Lemma range_nth (n : Z) (i : nat) (d : Z) :
  (i < Z.to_nat n)%nat -> nth i (range n) d = Z.of_nat i.
Proof.
  intros Hi. unfold range.
  rewrite (nth_indep _ d (Z.of_nat 0)) by (rewrite length_map, length_seq; exact Hi).
  rewrite map_nth, seq_nth by exact Hi. reflexivity.
Qed.

(** ** Timestamps *)

Lemma datetime_constants :
  us_per_hour = 3600000000%Z /\
  datetime_max = 315537897599999999%Z /\
  timedelta_min = (-86399999913600000000)%Z /\
  timedelta_max = 86399999999999999999%Z.
Proof. repeat split; reflexivity. Qed.

Ltac datetime_lia :=
  destruct datetime_constants as (? & ? & ? & ?); unfold valid in *; lia.

Lemma time_at_ok (now : datetime) (i : Z) :
  valid now -> (0 <= i)%Z -> (now + i * us_per_hour <= datetime_max)%Z ->
  time_at now i = Ok (now + i * us_per_hour)%Z.
Proof.
  intros Hn Hi Hmax. unfold time_at, timedelta_hours, add; cbv zeta.
  assert (Hb : ((timedelta_min <=? i * us_per_hour)
                && (i * us_per_hour <=? timedelta_max))%Z = true).
  { apply andb_true_iff; split; apply Z.leb_le; datetime_lia. }
  rewrite Hb; cbn [bind].
  assert (Hc : ((0 <=? now + i * us_per_hour)
                && (now + i * us_per_hour <=? datetime_max))%Z = true).
  { apply andb_true_iff; split; apply Z.leb_le; datetime_lia. }
  rewrite Hc. reflexivity.
Qed.

Lemma time_at_inv (now : datetime) (i : Z) (t : datetime) :
  time_at now i = Ok t -> t = (now + i * us_per_hour)%Z /\ valid t.
Proof.
  unfold time_at, timedelta_hours, add, valid; cbv zeta.
  destruct ((timedelta_min <=? i * us_per_hour)
            && (i * us_per_hour <=? timedelta_max))%Z; cbn [bind]; [|discriminate].
  destruct ((0 <=? now + i * us_per_hour)
            && (now + i * us_per_hour <=? datetime_max))%Z eqn:E; [|discriminate].
  intros H; injection H as <-. apply andb_true_iff in E as [E1 E2].
  apply Z.leb_le in E1, E2. split; [reflexivity | split; assumption].
Qed.

Lemma time_at_raise (now : datetime) (i : Z) (e : exn) :
  time_at now i = Raise e -> e = OverflowError.
Proof.
  unfold time_at, timedelta_hours, add; cbv zeta.
  destruct ((timedelta_min <=? i * us_per_hour)
            && (i * us_per_hour <=? timedelta_max))%Z; cbn [bind].
  - destruct ((0 <=? now + i * us_per_hour)
              && (now + i * us_per_hour <=? datetime_max))%Z; congruence.
  - congruence.
Qed.

Lemma time_at_overflow (now : datetime) (i : Z) :
  (datetime_max < now + i * us_per_hour)%Z ->
  time_at now i = Raise OverflowError.
Proof.
  intros Hi. destruct (time_at now i) as [t|e] eqn:E.
  - apply time_at_inv in E as [-> Hv]. unfold valid in Hv. lia.
  - f_equal. exact (time_at_raise _ _ E).
Qed.

(** ** Tiling *)

Lemma tile_nat_length (a : list R) (n : nat) :
  length (np.tile_nat a n) = (n * length a)%nat.
Proof. induction n; simpl; [|rewrite length_app, IHn]; reflexivity. Qed.

Lemma tile_nat_nth (a : list R) (n i : nat) (d : R) :
  (i < n * length a)%nat ->
  nth i (np.tile_nat a n) d = nth (i mod length a) a d.
Proof.
  revert i; induction n as [|n IH]; intros i Hi; simpl in *; [lia|].
  assert (Hlen : length a <> 0%nat) by (destruct a; simpl in *; lia).
  destruct (Nat.lt_ge_cases i (length a)) as [Hlt|Hge].
  - rewrite app_nth1 by exact Hlt. rewrite Nat.mod_small by exact Hlt. reflexivity.
  - rewrite app_nth2 by exact Hge. rewrite IH by lia. f_equal.
    replace i with ((i - length a) + 1 * length a)%nat at 2 by lia.
    rewrite Nat.Div0.mod_add. reflexivity.
Qed.

Lemma sum_app (a b : list R) : exact_sum (a ++ b) = (exact_sum a + exact_sum b)%R.
Proof.
  unfold exact_sum. induction a as [|x a IH]; simpl; [lra|]. rewrite IH. lra.
Qed.

Lemma tile_nat_sum (a : list R) (n : nat) :
  exact_sum (np.tile_nat a n) = (INR n * exact_sum a)%R.
Proof.
  induction n as [|n IH].
  - simpl. unfold exact_sum at 1. simpl. lra.
  - rewrite S_INR. simpl np.tile_nat. rewrite sum_app, IH. lra.
Qed.

(** ** Random draws *)

Section Draws.

Variable A : Type.
Variable one : np.RandomState -> A * np.RandomState.

Lemma draw_length (n : nat) (g : np.RandomState) :
  length (fst (np.draw one n g)) = n.
Proof.
  revert g; induction n as [|n IH]; intros g; simpl; [reflexivity|].
  destruct (one g) as [x g1]. specialize (IH g1).
  destruct (np.draw one n g1) as [xs g2]. simpl in *. congruence.
Qed.

Lemma draw_Forall (P : A -> Prop) (n : nat) (g : np.RandomState) :
  (forall s, P (fst (one s))) -> Forall P (fst (np.draw one n g)).
Proof.
  intros HP. revert g; induction n as [|n IH]; intros g; simpl; [constructor|].
  specialize (HP g). destruct (one g) as [x g1]. specialize (IH g1).
  destruct (np.draw one n g1) as [xs g2]. simpl in *. constructor; assumption.
Qed.

End Draws.

Lemma randint1_range (low high : Z) (g : np.RandomState) :
  (low < high)%Z -> (low <= fst (np.randint1 low high g) < high)%Z.
Proof.
  intros H. unfold np.randint1, np.next_word; cbn [fst].
  pose proof (Z.mod_pos_bound (Z.of_N (np.tape g (np.pos g))) (high - low)). lia.
Qed.

Lemma random_sample_range (g : np.RandomState) :
  (0 <= fst (np.random_sample g) < 1)%R.
Proof.
  unfold np.random_sample, np.next_word; cbn [fst].
  assert (Hw : (0 <= Z.of_N (np.tape g (np.pos g) mod 9007199254740992) < 9007199254740992)%Z).
  { split; [apply N2Z.is_nonneg|].
    change 9007199254740992%Z with (Z.of_N 9007199254740992).
    apply N2Z.inj_lt, N.mod_lt. discriminate. }
  destruct Hw as [H0 H1]. apply IZR_le in H0. apply IZR_lt in H1.
  split.
  - apply Rmult_le_pos; [exact H0|]. apply Rlt_le, Rinv_0_lt_compat. lra.
  - apply Rmult_lt_reg_r with 9007199254740992%R; [lra|].
    unfold Rdiv. rewrite Rmult_assoc, Rinv_l by lra. lra.
Qed.

Lemma uniform1_range (low high : R) (g : np.RandomState) :
  (low < high)%R -> (low <= fst (np.uniform1 low high g) < high)%R.
Proof.
  intros H. unfold np.uniform1.
  pose proof (random_sample_range g) as Hu.
  destruct (np.random_sample g) as [u g']. cbn [fst] in *. nra.
Qed.

(** ** What [forecast] returns *)

Lemma mapM_inv_map (A B : Type) (f : A -> result B) (g : A -> B)
    (l : list A) (l' : list B) :
  (forall x y, f x = Ok y -> y = g x) -> mapM f l = Ok l' -> l' = map g l.
Proof.
  intros Hg H. apply mapM_inv in H.
  induction H as [|x y xs ys Hxy _ IH]; simpl; [reflexivity|].
  rewrite (Hg _ _ Hxy), IH. reflexivity.
Qed.

Lemma mapM_inv_In (A B : Type) (f : A -> result B) (l : list A) (l' : list B) :
  mapM f l = Ok l' -> forall x, In x l -> exists y, f x = Ok y.
Proof.
  intros H. apply mapM_inv in H.
  induction H as [|x y xs ys Hxy _ IH]; intros a Ha; [destruct Ha|].
  destruct Ha as [<-|Ha]; [exists y; exact Hxy | exact (IH a Ha)].
Qed.

Lemma linspace_length (start stop : R) (num : nat) :
  length (np.linspace start stop num) = num.
Proof.
  unfold np.linspace; cbv zeta.
  destruct (1 <? num) eqn:E.
  - unfold np.set_last. rewrite length_app. simpl.
    rewrite removelast_firstn_len, length_firstn, length_map, length_seq.
    apply Nat.ltb_lt in E. lia.
  - rewrite length_map, length_seq. reflexivity.
Qed.

Lemma daily_power_length (self : SimplePVForecast) :
  length (daily_power self) = 24.
Proof.
  unfold daily_power, np.scale, np.clip, np.sin.
  rewrite !length_map. apply linspace_length.
Qed.

Lemma series_lengths (self : SimplePVForecast) (days : Z)
    (now : datetime) (g : np.RandomState) :
  (0 <= days)%Z ->
  let df := fst (series self days now g) in
  let n := Z.to_nat (days * 24) in
  length (time df) = n /\ length (forecast_power_kw df) = n /\
  length (cloud_cover_percent df) = n /\ length (temperature_c df) = n /\
  length (DNI df) = n /\ length (DHI df) = n.
Proof.
  intros Hd. unfold series; cbv zeta.
  pose proof (draw_length (np.randint1 0 100) (Z.to_nat (days * 24)) g) as H1.
  destruct (np.draw (np.randint1 0 100) _ g) as [cloud g1].
  pose proof (draw_length (np.uniform1 0 30) (Z.to_nat (days * 24)) g1) as H2.
  destruct (np.draw (np.uniform1 0 30) _ g1) as [temperature g2].
  pose proof (draw_length (np.uniform1 0 1000) (Z.to_nat (days * 24)) g2) as H3.
  destruct (np.draw (np.uniform1 0 1000) _ g2) as [dni g3].
  pose proof (draw_length (np.uniform1 0 500) (Z.to_nat (days * 24)) g3) as H4.
  destruct (np.draw (np.uniform1 0 500) _ g3) as [dhi g4].
  cbn [fst time forecast_power_kw cloud_cover_percent temperature_c DNI DHI] in *.
  rewrite length_map, range_length, tile_nat_length, daily_power_length.
  repeat split; try assumption. lia.
Qed.

(** After the timestamps are built, nothing in [forecast] can raise. *)
Lemma forecast_after_times (self : SimplePVForecast) (days : Z)
    (now : datetime) (g : np.RandomState) :
  (0 <= days)%Z ->
  mapM (time_at now) (range (days * 24))
    = Ok (map (fun i => (now + i * us_per_hour)%Z) (range (days * 24))) ->
  forecast self days now g = Ok (series self days now g).
Proof.
  intros Hd Ht. unfold forecast; cbv zeta. rewrite Ht; cbn [bind].
  unfold np.tile. replace (days <? 0)%Z with false by (symmetry; apply Z.ltb_ge; lia).
  cbn [bind]. unfold np.randint, np.uniform.
  change (100 <=? 0)%Z with false.
  replace (days * 24 <? 0)%Z with false by (symmetry; apply Z.ltb_ge; lia).
  cbn [bind].
  pose proof (series_lengths self now g Hd) as HL. cbv zeta in HL.
  unfold series in *; cbv zeta in *.
  destruct (np.draw (np.randint1 0 100) _ g) as [cloud g1]. cbn [bind].
  destruct (np.draw (np.uniform1 0 30) _ g1) as [temperature g2]. cbn [bind].
  destruct (np.draw (np.uniform1 0 1000) _ g2) as [dni g3]. cbn [bind].
  destruct (np.draw (np.uniform1 0 500) _ g3) as [dhi g4]. cbn [bind].
  cbn [fst time forecast_power_kw cloud_cover_percent temperature_c DNI DHI] in HL.
  destruct HL as (L1 & L2 & L3 & L4 & L5 & L6).
  unfold DataFrame_of_columns; cbv zeta.
  rewrite L1, L2, L3, L4, L5, L6, Nat.eqb_refl. reflexivity.
Qed.

Lemma forecast_ok (self : SimplePVForecast) (days : Z)
    (now : datetime) (g : np.RandomState) :
  valid now -> (0 <= days)%Z ->
  (0 < days -> now + (days * 24 - 1) * us_per_hour <= datetime_max)%Z ->
  forecast self days now g = Ok (series self days now g).
Proof.
  intros Hn Hd Hmax. apply forecast_after_times; [exact Hd|].
  apply mapM_total. intros i Hi. apply range_In in Hi.
  apply time_at_ok; [exact Hn | lia |].
  assert (H : (0 < days)%Z) by lia. specialize (Hmax H).
  destruct datetime_constants as (Hh & _). rewrite Hh in *. lia.
Qed.

Lemma forecast_inv (self : SimplePVForecast) (days : Z)
    (now : datetime) (g : np.RandomState) (r : DataFrame * np.RandomState) :
  forecast self days now g = Ok r ->
  r = series self days now g /\ (0 <= days)%Z /\
  (forall i, (0 <= i < days * 24)%Z -> valid (now + i * us_per_hour)%Z).
Proof.
  intros H.
  assert (Hd : (0 <= days)%Z).
  { unfold forecast in H; cbv zeta in H.
    destruct (mapM (time_at now) (range (days * 24))); cbn [bind] in H; [|discriminate].
    unfold np.tile in H. destruct (days <? 0)%Z eqn:E; cbn [bind] in H; [discriminate|].
    apply Z.ltb_ge in E. exact E. }
  assert (Ht : exists ts, mapM (time_at now) (range (days * 24)) = Ok ts).
  { unfold forecast in H; cbv zeta in H.
    destruct (mapM (time_at now) (range (days * 24))) as [ts|e];
      [exists ts; reflexivity | discriminate]. }
  destruct Ht as [ts Ht].
  assert (Hts : ts = map (fun i => (now + i * us_per_hour)%Z) (range (days * 24))).
  { apply (mapM_inv_map (time_at now)); [|exact Ht].
    intros x y Hxy. apply time_at_inv in Hxy. tauto. }
  subst ts. rewrite (forecast_after_times self now g Hd Ht) in H.
  injection H as <-. repeat split; try assumption.
  - destruct (mapM_inv_In _ _ Ht i) as [y Hy]; [apply range_In; exact H|].
    apply time_at_inv in Hy as [-> Hv]. apply Hv.
  - destruct (mapM_inv_In _ _ Ht i) as [y Hy]; [apply range_In; exact H|].
    apply time_at_inv in Hy as [-> Hv]. apply Hv.
Qed.

(** One overflowing timestamp makes the whole call raise. *)
Lemma forecast_overflow (self : SimplePVForecast) (days : Z)
    (now : datetime) (g : np.RandomState) (i : Z) :
  (0 <= i < days * 24)%Z -> (datetime_max < now + i * us_per_hour)%Z ->
  forecast self days now g = Raise OverflowError.
Proof.
  intros Hi Hover. unfold forecast; cbv zeta.
  rewrite (@mapM_raise _ _ (time_at now) OverflowError (range (days * 24)) i).
  - reflexivity.
  - intros y e. apply time_at_raise.
  - apply range_In. exact Hi.
  - apply time_at_overflow. exact Hover.
Qed.

(** ** The daily power shape *)

Section DailyShape.

Local Open Scope R_scope.

(** [np.pi] lies strictly below the mathematical constant, by less
    than 10^-15 (partial sums of 2 atan(1/3) + atan(1/7)). *)
Lemma pi_lt_PI : np.pi < PI.
Proof.
  pose proof (PI_2_3_7_ineq 8) as [H _].
  unfold np.pi.
  cbn [sum_f_R0 Nat.mul Nat.add] in H.
  unfold tg_alt, PI_2_3_7_tg, Ratan_seq in H.
  rewrite !INR_IZR_INZ in H.
  cbn [Nat.mul Nat.add Z.of_nat Pos.of_succ_nat Pos.succ] in H.
  lra.
Qed.

Lemma PI_lt_pi : PI < np.pi + / 1000000000000000.
Proof.
  pose proof (PI_2_3_7_ineq 8) as [_ H].
  unfold np.pi.
  cbn [sum_f_R0 Nat.mul Nat.add] in H.
  unfold tg_alt, PI_2_3_7_tg, Ratan_seq in H.
  rewrite !INR_IZR_INZ in H.
  cbn [Nat.mul Nat.add Z.of_nat Pos.of_succ_nat Pos.succ] in H.
  lra.
Qed.

Lemma linspace_0_pi : np.linspace 0 np.pi 24 = map hour_angle (seq 0 24).
Proof.
  unfold np.linspace, np.set_last; cbv zeta.
  change (1 <? 24)%nat with true. cbv iota.
  cbn [seq map removelast app Nat.sub].
  unfold hour_angle. rewrite !INR_IZR_INZ.
  cbn [Z.of_nat Pos.of_succ_nat Pos.succ].
  repeat (f_equal; [lra|]). f_equal. lra.
Qed.

Lemma hour_angle_23 : hour_angle 23 = np.pi.
Proof.
  unfold hour_angle. rewrite INR_IZR_INZ.
  cbn [Z.of_nat Pos.of_succ_nat Pos.succ]. lra.
Qed.

Lemma INR_hour (h : nat) : (h < 24)%nat -> 0 <= INR h <= 23.
Proof.
  intros H. split; [apply pos_INR|].
  replace 23 with (INR 23)
    by (rewrite INR_IZR_INZ; cbn [Z.of_nat Pos.of_succ_nat Pos.succ]; reflexivity).
  apply le_INR. lia.
Qed.

Lemma hour_angle_range (h : nat) :
  (h < 24)%nat -> 0 <= hour_angle h < PI.
Proof.
  intros H. apply INR_hour in H. pose proof pi_lt_PI.
  unfold hour_angle, np.pi in *. lra.
Qed.

Lemma hour_angle_pos (h : nat) : (0 < h)%nat -> 0 < hour_angle h.
Proof.
  intros H. apply lt_0_INR in H. unfold hour_angle, np.pi. lra.
Qed.

Lemma clip1_unit (x : R) : 0 <= np.clip1 x 0 1 <= 1.
Proof.
  unfold np.clip1, Rmin, Rmax.
  destruct (Rle_dec x 0); destruct (Rle_dec _ 1); lra.
Qed.

Lemma clip1_id (x : R) : 0 <= x <= 1 -> np.clip1 x 0 1 = x.
Proof.
  intros H. unfold np.clip1, Rmin, Rmax.
  destruct (Rle_dec x 0); destruct (Rle_dec _ 1); lra.
Qed.

(** On the grid the sine is already in [0, 1]: the clip changes nothing. *)
Lemma clip_sin_hour (h : nat) :
  (h < 24)%nat ->
  np.clip1 (sin (hour_angle h)) 0 1 = sin (hour_angle h).
Proof.
  intros H. apply clip1_id. split.
  - apply sin_ge_0; pose proof (hour_angle_range H); lra.
  - apply SIN_bound.
Qed.

Lemma sin_hour_pos (h : nat) :
  (0 < h < 24)%nat -> 0 < sin (hour_angle h).
Proof.
  intros [H0 H]. apply sin_gt_0.
  - apply hour_angle_pos; exact H0.
  - apply hour_angle_range; exact H.
Qed.

(** The residue at the last hour: [sin(np.pi)] is positive and tiny. *)
Lemma sin_pi_residue : 0 < sin np.pi < / 1000000000000000.
Proof.
  pose proof pi_lt_PI as H1. pose proof PI_lt_pi as H2.
  split.
  - apply sin_gt_0; [unfold np.pi|]; lra.
  - rewrite <- sin_PI_x.
    apply Rlt_trans with (PI - np.pi); [apply sin_lt_x|]; lra.
Qed.

(** The sine on the grid peaks at hour 11 or 12. *)
Lemma sin_hour_peak (h : nat) :
  (h < 24)%nat ->
  sin (hour_angle h) <= Rmax (sin (hour_angle 11)) (sin (hour_angle 12)).
Proof.
  intros H. pose proof pi_lt_PI as H1. pose proof PI_lt_pi as H2.
  assert (E11 : hour_angle 11 = 11 * (np.pi / 23)).
  { unfold hour_angle. rewrite INR_IZR_INZ.
    cbn [Z.of_nat Pos.of_succ_nat Pos.succ]. reflexivity. }
  assert (E12 : hour_angle 12 = 12 * (np.pi / 23)).
  { unfold hour_angle. rewrite INR_IZR_INZ.
    cbn [Z.of_nat Pos.of_succ_nat Pos.succ]. reflexivity. }
  destruct (Nat.le_gt_cases h 11) as [Hle|Hgt].
  - apply Rle_trans with (sin (hour_angle 11)); [|apply Rmax_l].
    assert (Hh : 0 <= INR h <= 11).
    { split; [apply pos_INR|].
      replace 11 with (INR 11)
        by (rewrite INR_IZR_INZ; cbn [Z.of_nat Pos.of_succ_nat Pos.succ]; reflexivity).
      apply le_INR; exact Hle. }
    rewrite E11.
    apply sin_incr_1; unfold hour_angle, np.pi in *; lra.
  - apply Rle_trans with (sin (hour_angle 12)); [|apply Rmax_r].
    assert (Hh : 12 <= INR h <= 23).
    { split; [|apply INR_hour; exact H].
      replace 12 with (INR 12)
        by (rewrite INR_IZR_INZ; cbn [Z.of_nat Pos.of_succ_nat Pos.succ]; reflexivity).
      apply le_INR; lia. }
    rewrite E12.
    apply sin_decr_1; unfold hour_angle, np.pi in *; lra.
Qed.

Lemma daily_power_shape (self : SimplePVForecast) :
  daily_power self
  = map (fun h => capacity_kw self * performance_ratio self
                  * np.clip1 (sin (hour_angle h)) 0 1) (seq 0 24).
Proof.
  unfold daily_power, np.scale, np.clip, np.sin.
  rewrite linspace_0_pi, !map_map. reflexivity.
Qed.

Lemma daily_power_nth (self : SimplePVForecast) (h : nat) :
  (h < 24)%nat ->
  nth h (daily_power self) 0
  = capacity_kw self * performance_ratio self
    * np.clip1 (sin (hour_angle h)) 0 1.
Proof.
  intros H. rewrite daily_power_shape.
  set (F := fun h => capacity_kw self * performance_ratio self
                     * np.clip1 (sin (hour_angle h)) 0 1).
  rewrite (nth_indep _ 0 (F 0%nat)) by (rewrite length_map, length_seq; exact H).
  rewrite map_nth, seq_nth by exact H. reflexivity.
Qed.

End DailyShape.

(** ** The columns of a generated series *)

Lemma series_time (self : SimplePVForecast) (days : Z)
    (now : datetime) (g : np.RandomState) :
  time (fst (series self days now g))
  = map (fun i => (now + i * us_per_hour)%Z) (range (days * 24)).
Proof.
  unfold series; cbv zeta.
  destruct (np.draw (np.randint1 0 100) _ g) as [cloud g1].
  destruct (np.draw (np.uniform1 0 30) _ g1) as [temperature g2].
  destruct (np.draw (np.uniform1 0 1000) _ g2) as [dni g3].
  destruct (np.draw (np.uniform1 0 500) _ g3) as [dhi g4].
  reflexivity.
Qed.

Lemma series_power (self : SimplePVForecast) (days : Z)
    (now : datetime) (g : np.RandomState) :
  forecast_power_kw (fst (series self days now g))
  = np.tile_nat (daily_power self) (Z.to_nat days).
Proof.
  unfold series; cbv zeta.
  destruct (np.draw (np.randint1 0 100) _ g) as [cloud g1].
  destruct (np.draw (np.uniform1 0 30) _ g1) as [temperature g2].
  destruct (np.draw (np.uniform1 0 1000) _ g2) as [dni g3].
  destruct (np.draw (np.uniform1 0 500) _ g3) as [dhi g4].
  reflexivity.
Qed.

Lemma series_weather (self : SimplePVForecast) (days : Z)
    (now : datetime) (g : np.RandomState) :
  let df := fst (series self days now g) in
  Forall (fun c => (0 <= c < 100)%Z) (cloud_cover_percent df) /\
  Forall (fun t => (0 <= t < 30)%R) (temperature_c df) /\
  Forall (fun x => (0 <= x < 1000)%R) (DNI df) /\
  Forall (fun x => (0 <= x < 500)%R) (DHI df).
Proof.
  unfold series; cbv zeta.
  pose proof (draw_Forall (np.randint1 0 100) (fun c => (0 <= c < 100)%Z)
                (Z.to_nat (days * 24)) g) as H1.
  destruct (np.draw (np.randint1 0 100) _ g) as [cloud g1].
  pose proof (draw_Forall (np.uniform1 0 30) (fun t => (0 <= t < 30)%R)
                (Z.to_nat (days * 24)) g1) as H2.
  destruct (np.draw (np.uniform1 0 30) _ g1) as [temperature g2].
  pose proof (draw_Forall (np.uniform1 0 1000) (fun t => (0 <= t < 1000)%R)
                (Z.to_nat (days * 24)) g2) as H3.
  destruct (np.draw (np.uniform1 0 1000) _ g2) as [dni g3].
  pose proof (draw_Forall (np.uniform1 0 500) (fun t => (0 <= t < 500)%R)
                (Z.to_nat (days * 24)) g3) as H4.
  destruct (np.draw (np.uniform1 0 500) _ g3) as [dhi g4].
  cbn [fst cloud_cover_percent temperature_c DNI DHI] in *.
  repeat split.
  - apply H1. intros s. apply randint1_range. lia.
  - apply H2. intros s. apply uniform1_range. lra.
  - apply H3. intros s. apply uniform1_range. lra.
  - apply H4. intros s. apply uniform1_range. lra.
Qed.

Lemma forecast_ok_pair (self : SimplePVForecast) (days : Z)
    (now : datetime) (g : np.RandomState) :
  valid now -> (0 <= days)%Z ->
  (0 < days -> now + (days * 24 - 1) * us_per_hour <= datetime_max)%Z ->
  forecast self days now g
  = Ok (fst (series self days now g), snd (series self days now g)).
Proof.
  intros Hn Hd Hmax. rewrite <- surjective_pairing.
  apply forecast_ok; assumption.
Qed.

Lemma forecast_inv_frame (self : SimplePVForecast) (days : Z)
    (now : datetime) (g g' : np.RandomState) (df : DataFrame) :
  forecast self days now g = Ok (df, g') ->
  df = fst (series self days now g) /\ (0 <= days)%Z /\
  nrows df = (Z.to_nat days * 24)%nat.
Proof.
  intros H. apply forecast_inv in H as (Hr & Hd & _).
  assert (Hdf : df = fst (series self days now g)) by (rewrite <- Hr; reflexivity).
  repeat split; try assumption.
  unfold nrows. rewrite Hdf, series_time, length_map, range_length. lia.
Qed.

(** Row [i] of the power column is entry [i mod 24] of [daily_power]. *)
Lemma forecast_power_nth (self : SimplePVForecast) (days : Z)
    (now : datetime) (g g' : np.RandomState) (df : DataFrame) (i : nat) :
  forecast self days now g = Ok (df, g') -> i < nrows df ->
  nth i (forecast_power_kw df) 0%R = nth (i mod 24) (daily_power self) 0%R.
Proof.
  intros H Hi. apply forecast_inv_frame in H as (-> & Hd & Hn).
  rewrite series_power, tile_nat_nth; rewrite daily_power_length.
  - reflexivity.
  - rewrite <- Hn. exact Hi.
Qed.

Lemma example_now_valid : valid example_now.
Proof. unfold example_now. datetime_lia. Qed.

Lemma example_one_day :
  forecast example_plant 1 example_now example_rng
  = Ok (fst (series example_plant 1 example_now example_rng),
        snd (series example_plant 1 example_now example_rng)).
Proof.
  apply forecast_ok_pair; [apply example_now_valid | lia |].
  intros _. unfold example_now. datetime_lia.
Qed.

Lemma example_default_days :
  forecast example_plant 14 example_now example_rng
  = Ok (fst (series example_plant 14 example_now example_rng),
        snd (series example_plant 14 example_now example_rng)).
Proof.
  apply forecast_ok_pair; [apply example_now_valid | lia |].
  intros _. unfold example_now. datetime_lia.
Qed.

(** ** Rounded sums *)

Section RoundedSums.

Local Open Scope R_scope.

Lemma exact_sum_app (a b : list R) :
  exact_sum (a ++ b) = exact_sum a + exact_sum b.
Proof. apply sum_app. Qed.

Lemma exact_sum_perm (l l' : list R) :
  Permutation l l' -> exact_sum l = exact_sum l'.
Proof.
  induction 1 as [|x l l' _ IH|x y l|l l' l'' _ IH1 _ IH2]; unfold exact_sum in *;
    cbn [fold_right]; lra.
Qed.

Lemma abs_sum_nonneg (a : list R) : 0 <= exact_sum (map Rabs a).
Proof.
  induction a as [|x a IH]; unfold exact_sum in *; cbn [map fold_right]; [lra|].
  pose proof (Rabs_pos x). lra.
Qed.

Lemma abs_sum_bound (a : list R) : Rabs (exact_sum a) <= exact_sum (map Rabs a).
Proof.
  induction a as [|x a IH]; unfold exact_sum in *; cbn [map fold_right].
  - rewrite Rabs_R0. lra.
  - pose proof (Rabs_triang x (fold_right Rplus 0 a)). lra.
Qed.

Lemma tile_abs_sum (a : list R) (n : nat) :
  exact_sum (map Rabs (np.tile_nat a n)) = INR n * exact_sum (map Rabs a).
Proof.
  induction n as [|n IH].
  - cbn. unfold exact_sum. cbn. lra.
  - rewrite S_INR. cbn [np.tile_nat]. rewrite map_app, exact_sum_app, IH. lra.
Qed.

Lemma unit_roundoff_pos : 0 < unit_roundoff.
Proof. unfold unit_roundoff. apply Rinv_0_lt_compat. lra. Qed.

Lemma roundoff_pow_ge_1 (n : nat) : 1 <= (1 + unit_roundoff) ^ n.
Proof. apply pow_R1_Rle. pose proof unit_roundoff_pos. lra. Qed.

Lemma roundoff_pow_mono (m n : nat) :
  (m <= n)%nat -> (1 + unit_roundoff) ^ m <= (1 + unit_roundoff) ^ n.
Proof. intros H. apply Rle_pow; [pose proof unit_roundoff_pos; lra | exact H]. Qed.

Lemma float_sum_nonempty (rnd : R -> R) (l : list R) (s : R) :
  float_sum rnd l s -> (1 <= length l)%nat.
Proof.
  induction 1 as [x|l1 l2 s1 s2 _ IH1 _ IH2|l l' s Hp _ IH].
  - cbn. lia.
  - rewrite length_app. lia.
  - rewrite <- (Permutation_length Hp). exact IH.
Qed.

(** The classical bound: after at most [n - 1] nested rounded additions
    the result is off by at most [((1 + u)^(n-1) - 1)] times the sum of
    the absolute values. *)
Lemma float_sum_error (rnd : R -> R) (l : list R) (s : R) :
  rounding rnd -> float_sum rnd l s ->
  Rabs (s - exact_sum l)
  <= ((1 + unit_roundoff) ^ (length l - 1) - 1) * exact_sum (map Rabs l).
Proof.
  intros Hrnd. induction 1 as [x|l1 l2 s1 s2 H1 IH1 H2 IH2|l l' s Hp H IH].
  - unfold exact_sum. cbn. rewrite Rplus_0_r.
    unfold Rminus. rewrite Rplus_opp_r, Rabs_R0. lra.
  - pose proof (float_sum_nonempty H1) as N1.
    pose proof (float_sum_nonempty H2) as N2.
    rewrite map_app, !exact_sum_app, length_app.
    set (n1 := length l1) in *. set (n2 := length l2) in *.
    set (S1 := exact_sum l1) in *. set (S2 := exact_sum l2) in *.
    pose proof (abs_sum_nonneg l1) as HA1. pose proof (abs_sum_nonneg l2) as HA2.
    pose proof (abs_sum_bound l1) as HB1. pose proof (abs_sum_bound l2) as HB2.
    fold S1 in HB1. fold S2 in HB2.
    set (A1 := exact_sum (map Rabs l1)) in *.
    set (A2 := exact_sum (map Rabs l2)) in *.
    pose proof unit_roundoff_pos as Hu.
    pose proof (roundoff_pow_ge_1 (n1 - 1)) as HP1.
    pose proof (roundoff_pow_ge_1 (n2 - 1)) as HP2.
    assert (HQ1 : (1 + unit_roundoff) * (1 + unit_roundoff) ^ (n1 - 1)
                  <= (1 + unit_roundoff) ^ (n1 + n2 - 1)).
    { change ((1 + unit_roundoff) * (1 + unit_roundoff) ^ (n1 - 1))
        with ((1 + unit_roundoff) ^ S (n1 - 1)).
      apply roundoff_pow_mono. lia. }
    assert (HQ2 : (1 + unit_roundoff) * (1 + unit_roundoff) ^ (n2 - 1)
                  <= (1 + unit_roundoff) ^ (n1 + n2 - 1)).
    { change ((1 + unit_roundoff) * (1 + unit_roundoff) ^ (n2 - 1))
        with ((1 + unit_roundoff) ^ S (n2 - 1)).
      apply roundoff_pow_mono. lia. }
    set (P1 := (1 + unit_roundoff) ^ (n1 - 1)) in *.
    set (P2 := (1 + unit_roundoff) ^ (n2 - 1)) in *.
    set (P := (1 + unit_roundoff) ^ (n1 + n2 - 1)) in *.
    pose proof (Hrnd (s1 + s2)) as Hr.
    assert (Hs1 : Rabs s1 <= P1 * A1).
    { replace s1 with ((s1 - S1) + S1) by ring.
      eapply Rle_trans; [apply Rabs_triang|]. nra. }
    assert (Hs2 : Rabs s2 <= P2 * A2).
    { replace s2 with ((s2 - S2) + S2) by ring.
      eapply Rle_trans; [apply Rabs_triang|]. nra. }
    assert (Hs : Rabs (s1 + s2) <= P1 * A1 + P2 * A2).
    { eapply Rle_trans; [apply Rabs_triang|]. lra. }
    assert (Hd : Rabs (rnd (s1 + s2) - (s1 + s2))
                 <= unit_roundoff * (P1 * A1 + P2 * A2)) by nra.
    replace (rnd (s1 + s2) - (S1 + S2))
      with ((rnd (s1 + s2) - (s1 + s2)) + ((s1 - S1) + (s2 - S2))) by ring.
    eapply Rle_trans; [apply Rabs_triang|].
    pose proof (Rabs_triang (s1 - S1) (s2 - S2)) as Ht.
    nra.
  - rewrite <- (exact_sum_perm Hp), <- (Permutation_length Hp).
    rewrite <- (exact_sum_perm (Permutation_map Rabs Hp)). exact IH.
Qed.

Lemma Series_sum_error (rnd : R -> R) (a : list R) (s : R) :
  rounding rnd -> Series_sum rnd a s ->
  Rabs (s - exact_sum a)
  <= ((1 + unit_roundoff) ^ (length a - 1) - 1) * exact_sum (map Rabs a).
Proof.
  intros Hrnd H. destruct a as [|x a].
  - cbn in H. subst s. unfold exact_sum. cbn.
    unfold Rminus. rewrite Rplus_opp_r, Rabs_R0. lra.
  - exact (@float_sum_error rnd (x :: a) s Hrnd H).
Qed.

(** The rounded sum of a tiled column against [n] times the rounded sum
    of one tile. *)
Lemma tiled_sum_error (rnd : R -> R) (a : list R) (n : nat) (total part : R) :
  rounding rnd ->
  Series_sum rnd (np.tile_nat a n) total -> Series_sum rnd a part ->
  Rabs (total - INR n * part)
  <= (((1 + unit_roundoff) ^ (n * length a - 1) - 1)
      + ((1 + unit_roundoff) ^ (length a - 1) - 1))
     * (INR n * exact_sum (map Rabs a)).
Proof.
  intros Hrnd Ht Hp.
  pose proof (@Series_sum_error rnd _ _ Hrnd Ht) as E1.
  pose proof (@Series_sum_error rnd _ _ Hrnd Hp) as E2.
  rewrite tile_nat_sum, tile_abs_sum, tile_nat_length in E1.
  pose proof (pos_INR n) as Hn. pose proof (abs_sum_nonneg a) as HA.
  set (A := exact_sum (map Rabs a)) in *.
  set (E := (1 + unit_roundoff) ^ (n * length a - 1) - 1) in *.
  set (F := (1 + unit_roundoff) ^ (length a - 1) - 1) in *.
  replace (total - INR n * part)
    with ((total - INR n * exact_sum a) + INR n * (exact_sum a - part)) by ring.
  eapply Rle_trans; [apply Rabs_triang|].
  rewrite Rabs_mult, (Rabs_pos_eq (INR n)) by exact Hn.
  rewrite (Rabs_minus_sym (exact_sum a) part).
  assert (INR n * Rabs (part - exact_sum a) <= INR n * (F * A))
    by (apply Rmult_le_compat_l; assumption).
  lra.
Qed.

(** Adding left to right is one of the summations. *)
Lemma float_sum_left_to_right (rnd : R -> R) (l prefix : list R) (s : R) :
  float_sum rnd prefix s ->
  float_sum rnd (prefix ++ l) (fold_left (fun acc y => rnd (acc + y)) l s).
Proof.
  revert prefix s. induction l as [|y l IH]; intros prefix s H; cbn [fold_left].
  - rewrite app_nil_r. exact H.
  - replace (prefix ++ y :: l) with ((prefix ++ [y]) ++ l)
      by (rewrite <- app_assoc; reflexivity).
    apply IH. apply float_sum_add; [exact H | constructor].
Qed.

Lemma Series_sum_exists (rnd : R -> R) (a : list R) :
  exists s : R, Series_sum rnd a s.
Proof.
  destruct a as [|x a].
  - exists 0%R. reflexivity.
  - exists (fold_left (fun acc y => rnd (acc + y)%R) a x).
    exact (@float_sum_left_to_right rnd a [x] x (@float_sum_one rnd x)).
Qed.

(** Rounding every result upwards by one unit roundoff is within the
    standard model. *)
Lemma inflate_rounding : rounding (fun x => (x * (1 + unit_roundoff))%R).
Proof.
  intros x. replace (x * (1 + unit_roundoff) - x)%R with (unit_roundoff * x)%R by ring.
  rewrite Rabs_mult, (Rabs_pos_eq unit_roundoff).
  - apply Rle_refl.
  - apply Rlt_le, unit_roundoff_pos.
Qed.

End RoundedSums.

(** * The claims *)

(** C1 (as amended).  In every generated series the power at row [i] is
    [capacity_kw * performance_ratio * clip(sin(x), 0, 1)] where [x] is the
    sample of hour [h = i mod 24] on the grid [np.linspace(0, np.pi, 24)],
    that is [h * (np.pi / 23)] with the binary64 constant [np.pi].  For
    [capacity_kw > 0] and [0 < performance_ratio <= 1] every value lies in
    [[0, capacity_kw * performance_ratio]], the value at hour 0 is 0, the
    value at hour 23 is the positive residue
    [capacity_kw * performance_ratio * sin(np.pi)], below
    [capacity_kw * performance_ratio * 10^-15], and no value exceeds the
    larger of the values of rows 11 and 12. *)
Theorem forecast_power_shape (self : SimplePVForecast) (days : Z)
    (now : datetime) (g g' : np.RandomState) (df : DataFrame) :
  forecast self days now g = Ok (df, g') ->
  forall i : nat, i < nrows df ->
    let h := i mod 24 in
    let p := nth i (forecast_power_kw df) 0%R in
    let peak := (capacity_kw self * performance_ratio self)%R in
    (p = peak * np.clip1 (sin (hour_angle h)) 0 1)%R /\
    ((0 < capacity_kw self)%R -> (0 < performance_ratio self <= 1)%R ->
       (0 <= p <= peak)%R /\
       (h = 0 -> p = 0%R) /\
       (h = 23 -> p = (peak * sin np.pi)%R
                  /\ (0 < p < peak * / 1000000000000000)%R) /\
       (p <= Rmax (nth 11 (forecast_power_kw df) 0)
                  (nth 12 (forecast_power_kw df) 0))%R).
Proof.
  intros H i Hi h p peak.
  assert (Hh : h < 24) by (apply Nat.mod_upper_bound; discriminate).
  assert (Hp : (p = peak * np.clip1 (sin (hour_angle h)) 0 1)%R).
  { subst p. rewrite (forecast_power_nth _ _ _ _ H Hi).
    apply daily_power_nth. exact Hh. }
  split; [exact Hp|]. intros Hc Hr.
  assert (Hpeak : (0 < peak)%R) by (subst peak; nra).
  pose proof (clip1_unit (sin (hour_angle h))) as Hu.
  rewrite (clip_sin_hour Hh) in Hp.
  rewrite (clip_sin_hour Hh) in Hu.
  split; [split; rewrite Hp; nra|].
  split.
  { intros E. rewrite Hp, E. unfold hour_angle. simpl INR.
    rewrite Rmult_0_l, sin_0. lra. }
  split.
  { intros E. rewrite Hp, E, hour_angle_23. pose proof sin_pi_residue.
    split; [reflexivity | nra]. }
  assert (Hrows : 12 < nrows df) by
    (pose proof (forecast_inv_frame _ _ _ _ H) as (_ & _ & Hn); lia).
  rewrite (forecast_power_nth (i := 11) _ _ _ _ H) by lia.
  rewrite (forecast_power_nth (i := 12) _ _ _ _ H) by lia.
  change (11 mod 24) with 11. change (12 mod 24) with 12.
  rewrite !daily_power_nth by lia.
  rewrite !clip_sin_hour by lia.
  pose proof (sin_hour_peak Hh) as Hpk. rewrite Hp.
  fold peak. rewrite RmaxRmult by lra.
  apply Rmult_le_compat_l; lra.
Qed.

(** C1, the claim as stated fails: with the form defaults and [days = 1]
    row 23 is not zero, and differs from the value of the formula with the
    mathematical constant. *)
Lemma forecast_last_hour_not_zero :
  exists df g',
    forecast example_plant 1 example_now example_rng = Ok (df, g') /\
    nrows df = 24 /\
    nth 23 (forecast_power_kw df) 0%R <> 0%R /\
    nth 23 (forecast_power_kw df) 0%R
    <> (capacity_kw example_plant * performance_ratio example_plant
        * np.clip1 (sin (PI * INR (23 mod 24) / 23)) 0 1)%R.
Proof.
  pose proof example_one_day as H.
  exists (fst (series example_plant 1 example_now example_rng)),
         (snd (series example_plant 1 example_now example_rng)).
  split; [exact H|].
  pose proof (forecast_inv_frame _ _ _ _ H) as (_ & _ & Hn).
  change (Z.to_nat 1 * 24) with 24 in Hn. split; [exact Hn|].
  assert (Hv : nth 23 (forecast_power_kw
                 (fst (series example_plant 1 example_now example_rng))) 0%R
               = (10 * (85 / 100) * sin np.pi)%R).
  { rewrite (forecast_power_nth (i := 23) _ _ _ _ H) by lia.
    change (23 mod 24) with 23.
    rewrite daily_power_nth, clip_sin_hour, hour_angle_23 by lia.
    reflexivity. }
  pose proof sin_pi_residue as Hs.
  split.
  - rewrite Hv. lra.
  - rewrite Hv. change (23 mod 24) with 23.
    replace (PI * INR 23 / 23)%R with PI.
    + rewrite sin_PI. rewrite clip1_id by lra. cbn [capacity_kw performance_ratio example_plant]. lra.
    + rewrite INR_IZR_INZ. cbn [Z.of_nat Pos.of_succ_nat Pos.succ]. lra.
Qed.

Lemma forecast_power_shape_witness :
  forecast example_plant 1 example_now example_rng
  = Ok (fst (series example_plant 1 example_now example_rng),
        snd (series example_plant 1 example_now example_rng)) /\
  23 < nrows (fst (series example_plant 1 example_now example_rng)) /\
  (let p := nth 23 (forecast_power_kw
                (fst (series example_plant 1 example_now example_rng))) 0%R in
   (p = 10 * (85 / 100) * np.clip1 (sin (hour_angle 23)) 0 1)%R /\
   (0 <= p <= 10 * (85 / 100))%R /\ (0 < p)%R).
Proof.
  pose proof example_one_day as H.
  assert (Hi : 23 < nrows (fst (series example_plant 1 example_now example_rng))).
  { pose proof (forecast_inv_frame _ _ _ _ H) as (_ & _ & Hn).
    rewrite Hn. change (Z.to_nat 1 * 24) with 24. lia. }
  split; [exact H|]. split; [exact Hi|].
  pose proof (forecast_power_shape _ _ _ _ H Hi) as [Hp Hrest].
  cbv zeta in Hp, Hrest.
  cbn [capacity_kw performance_ratio example_plant] in Hp, Hrest.
  change (23 mod 24) with 23 in Hp, Hrest.
  destruct Hrest as (Hb & _ & H23 & _); [lra | lra |].
  destruct (H23 eq_refl) as (_ & Hpos & _).
  cbv zeta. repeat split; [exact Hp | apply Hb | apply Hb | exact Hpos].
Defined.

(** C2 (as amended).  For every plant, every valid generation instant and
    every positive [days] whose last timestamp [now + (24 * days - 1) h]
    does not exceed [datetime.max], [forecast] returns a series of exactly
    [days * 24] rows. *)
Theorem forecast_row_count (self : SimplePVForecast) (days : Z)
    (now : datetime) (g : np.RandomState) :
  valid now -> (0 < days)%Z ->
  (now + (days * 24 - 1) * us_per_hour <= datetime_max)%Z ->
  exists df g',
    forecast self days now g = Ok (df, g') /\
    Z.of_nat (nrows df) = (days * 24)%Z.
Proof.
  intros Hn Hd Hmax.
  assert (H : forecast self days now g
              = Ok (fst (series self days now g), snd (series self days now g)))
    by (apply forecast_ok_pair; [exact Hn | lia | intros _; exact Hmax]).
  exists (fst (series self days now g)), (snd (series self days now g)).
  split; [exact H|].
  pose proof (forecast_inv_frame _ _ _ _ H) as (_ & _ & Hrows). lia.
Qed.

(** C2, the claim as stated fails: three million days from 2026-11-05 run
    past the year 9999 and the call raises [OverflowError]. *)
Lemma forecast_three_million_days_raises :
  (0 < 3000000)%Z /\
  forecast example_plant 3000000 example_now example_rng = Raise OverflowError.
Proof.
  split; [lia|].
  apply forecast_overflow with (i := 70000000%Z); [lia|].
  unfold example_now. datetime_lia.
Qed.

Lemma forecast_row_count_witness :
  exists df g',
    forecast example_plant 14 example_now example_rng = Ok (df, g') /\
    Z.of_nat (nrows df) = 336%Z.
Proof.
  apply (@forecast_row_count example_plant 14 example_now example_rng).
  - apply example_now_valid.
  - lia.
  - unfold example_now. datetime_lia.
Defined.

(** C3 (as amended).  In every generated series the power column has
    period 24, so it consists of [days] copies of the 24 values of one
    day (the first 24 rows).  The sum over all rows equals [days] times
    the sum of one day's values in exact arithmetic; the sums the program
    computes in binary64 agree only up to rounding: whatever the order of
    the rounded additions, the computed total and [days] times the
    computed daily sum differ by at most
    [((1 + u)^(rows - 1) - 1) + ((1 + u)^23 - 1)] times [days] times the
    sum of the absolute daily values, with [u = 2^-53]. *)
Theorem forecast_power_periodic (self : SimplePVForecast) (days : Z)
    (now : datetime) (g g' : np.RandomState) (df : DataFrame) :
  forecast self days now g = Ok (df, g') ->
  (forall i : nat, i + 24 < nrows df ->
     nth i (forecast_power_kw df) 0%R = nth (i + 24) (forecast_power_kw df) 0%R) /\
  ((0 < days)%Z -> firstn 24 (forecast_power_kw df) = daily_power self) /\
  exact_sum (forecast_power_kw df) = (IZR days * exact_sum (daily_power self))%R /\
  (forall (rnd : R -> R) (total day_total : R),
     rounding rnd ->
     Series_sum rnd (forecast_power_kw df) total ->
     Series_sum rnd (daily_power self) day_total ->
     (Rabs (total - IZR days * day_total)
      <= (((1 + unit_roundoff) ^ (nrows df - 1) - 1)
          + ((1 + unit_roundoff) ^ 23 - 1))
         * (IZR days * exact_sum (map Rabs (daily_power self))))%R).
Proof.
  intros H. split; [|split; [|split]].
  - intros i Hi.
    rewrite (forecast_power_nth (i := i) _ _ _ _ H) by lia.
    rewrite (forecast_power_nth (i := i + 24) _ _ _ _ H) by exact Hi.
    replace (i + 24) with (i + 1 * 24) by lia.
    rewrite Nat.Div0.mod_add. reflexivity.
  - intros Hd. pose proof (forecast_inv_frame _ _ _ _ H) as (-> & _ & _).
    rewrite series_power.
    destruct (Z.to_nat days) as [|k] eqn:E; [lia|].
    cbn [np.tile_nat]. rewrite <- (daily_power_length self) at 1.
    rewrite firstn_app, firstn_all, Nat.sub_diag, firstn_0, app_nil_r.
    reflexivity.
  - pose proof (forecast_inv_frame _ _ _ _ H) as (-> & Hd & _).
    rewrite series_power, tile_nat_sum, INR_IZR_INZ, Z2Nat.id by exact Hd.
    reflexivity.
  - intros rnd total day_total Hrnd Htotal Hday.
    pose proof (forecast_inv_frame _ _ _ _ H) as (Hdf & Hd & Hn).
    rewrite Hdf, series_power in Htotal.
    pose proof (@tiled_sum_error rnd _ _ _ _ Hrnd Htotal Hday) as E.
    rewrite daily_power_length, INR_IZR_INZ, Z2Nat.id in E by exact Hd.
    rewrite Hn. exact E.
Qed.

(** C3, the claim as stated fails in binary64.  For capacity 1 kWp and
    73 % (the column is [days = 14] copies of the 24 binary64 daily
    values) numpy's pairwise summation of the 336 rows returns
    149.41111133689563, while 14 times the sum of one day is
    149.41111133689566; adding left to right gives 149.41111133689543
    against 149.4111113368956. *)
Lemma binary64_sum_not_14_daily_sums :
  let day := binary64.daily_power 1 (PrimFloat.div 73 100) in
  let column := binary64.tile day 14 in
  length column = 336 /\
  binary64.sum column = Some 0x1.2ad27d2f65f69p+7%float /\
  option_map (PrimFloat.mul 14) (binary64.sum day)
  = Some 0x1.2ad27d2f65f6ap+7%float /\
  PrimFloat.eqb 0x1.2ad27d2f65f69p+7 0x1.2ad27d2f65f6ap+7 = false /\
  binary64.add_all 0 column = 0x1.2ad27d2f65f62p+7%float /\
  PrimFloat.mul 14 (binary64.add_all 0 day) = 0x1.2ad27d2f65f68p+7%float /\
  PrimFloat.eqb 0x1.2ad27d2f65f62p+7 0x1.2ad27d2f65f68p+7 = false.
Proof. vm_compute. repeat split; reflexivity. Qed.

Lemma forecast_power_periodic_witness :
  let df := fst (series example_plant 14 example_now example_rng) in
  let rnd := fun x : R => (x * (1 + unit_roundoff))%R in
  nth 5 (forecast_power_kw df) 0%R = nth 29 (forecast_power_kw df) 0%R /\
  exact_sum (forecast_power_kw df) = (14 * exact_sum (daily_power example_plant))%R /\
  exists total day_total : R,
    Series_sum rnd (forecast_power_kw df) total /\
    Series_sum rnd (daily_power example_plant) day_total /\
    (Rabs (total - 14 * day_total)
     <= (((1 + unit_roundoff) ^ (nrows df - 1) - 1)
         + ((1 + unit_roundoff) ^ 23 - 1))
        * (14 * exact_sum (map Rabs (daily_power example_plant))))%R.
Proof.
  cbv zeta.
  destruct (forecast_power_periodic _ _ _ _ example_default_days)
    as (Hper & _ & Hsum & Hround).
  split; [|split; [exact Hsum|]].
  - apply (Hper 5).
    pose proof (forecast_inv_frame _ _ _ _ example_default_days) as (_ & _ & Hn).
    rewrite Hn. change (Z.to_nat 14 * 24) with 336. lia.
  - destruct (Series_sum_exists (fun x : R => (x * (1 + unit_roundoff))%R)
                (forecast_power_kw
                   (fst (series example_plant 14 example_now example_rng))))
      as [total Htotal].
    destruct (Series_sum_exists (fun x : R => (x * (1 + unit_roundoff))%R)
                (daily_power example_plant)) as [day_total Hday].
    exists total, day_total.
    split; [exact Htotal|]. split; [exact Hday|].
    exact (Hround _ total day_total inflate_rounding Htotal Hday).
Defined.

(** C4.  In every generated series the timestamp of row [i] is
    [now + i] hours; consecutive rows differ by exactly one hour and are
    strictly increasing. *)
Theorem forecast_timestamps (self : SimplePVForecast) (days : Z)
    (now : datetime) (g g' : np.RandomState) (df : DataFrame) :
  forecast self days now g = Ok (df, g') ->
  (forall i : nat, i < nrows df ->
     nth i (time df) 0%Z = (now + Z.of_nat i * us_per_hour)%Z) /\
  (forall i : nat, S i < nrows df ->
     (nth (S i) (time df) 0 - nth i (time df) 0 = us_per_hour)%Z /\
     (nth i (time df) 0 < nth (S i) (time df) 0)%Z).
Proof.
  intros H. pose proof (forecast_inv_frame _ _ _ _ H) as (Hdf & Hd & Hn).
  assert (Hnth : forall i : nat, i < nrows df ->
            nth i (time df) 0%Z = (now + Z.of_nat i * us_per_hour)%Z).
  { intros i Hi. rewrite Hdf, series_time.
    set (F := fun i : Z => (now + i * us_per_hour)%Z).
    assert (Hlen : i < Z.to_nat (days * 24)) by lia.
    rewrite (nth_indep _ 0%Z (F 0%Z)) by (rewrite length_map, range_length; exact Hlen).
    rewrite map_nth, range_nth by exact Hlen. reflexivity. }
  split; [exact Hnth|].
  intros i Hi. rewrite !Hnth by lia.
  destruct datetime_constants as (Hh & _). rewrite Hh. lia.
Qed.

Lemma forecast_timestamps_witness :
  let df := fst (series example_plant 1 example_now example_rng) in
  nth 7 (time df) 0%Z = (example_now + 7 * us_per_hour)%Z /\
  (nth 8 (time df) 0 - nth 7 (time df) 0 = us_per_hour)%Z.
Proof.
  cbv zeta.
  destruct (forecast_timestamps _ _ _ _ example_one_day) as (Hat & Hstep).
  pose proof (forecast_inv_frame _ _ _ _ example_one_day) as (_ & _ & Hn).
  change (Z.to_nat 1 * 24) with 24 in Hn.
  split.
  - apply (Hat 7). lia.
  - apply (Hstep 7). lia.
Defined.

(** C5.  In every generated series every row has its weather values in
    range: an integer cloud cover in [0, 100), a temperature in [0, 30),
    a DNI in [0, 1000) and a DHI in [0, 500), whatever the draws. *)
Theorem weather_columns_in_range (self : SimplePVForecast) (days : Z)
    (now : datetime) (g g' : np.RandomState) (df : DataFrame) :
  forecast self days now g = Ok (df, g') ->
  (length (cloud_cover_percent df) = nrows df /\
   Forall (fun c => (0 <= c < 100)%Z) (cloud_cover_percent df)) /\
  (length (temperature_c df) = nrows df /\
   Forall (fun t => (0 <= t < 30)%R) (temperature_c df)) /\
  (length (DNI df) = nrows df /\
   Forall (fun x => (0 <= x < 1000)%R) (DNI df)) /\
  (length (DHI df) = nrows df /\
   Forall (fun x => (0 <= x < 500)%R) (DHI df)).
Proof.
  intros H. pose proof (forecast_inv_frame _ _ _ _ H) as (Hdf & Hd & Hn).
  pose proof (series_weather self days now g) as (W1 & W2 & W3 & W4).
  pose proof (series_lengths self now g Hd) as (L1 & _ & L3 & L4 & L5 & L6).
  unfold nrows. rewrite Hdf, L1, L3, L4, L5, L6. tauto.
Qed.

Lemma weather_columns_in_range_witness :
  let df := fst (series example_plant 14 example_now example_rng) in
  Forall (fun c => (0 <= c < 100)%Z) (cloud_cover_percent df) /\
  Forall (fun t => (0 <= t < 30)%R) (temperature_c df) /\
  Forall (fun x => (0 <= x < 1000)%R) (DNI df) /\
  Forall (fun x => (0 <= x < 500)%R) (DHI df).
Proof.
  cbv zeta.
  destruct (weather_columns_in_range _ _ _ _ example_default_days)
    as ((_ & H1) & (_ & H2) & (_ & H3) & (_ & H4)).
  repeat split; assumption.
Defined.

(** C6.  Latitude, longitude and mounting type do not influence the
    result: two runs that agree on capacity, performance ratio, days,
    generation instant and generator state return the same result. *)
Theorem forecast_ignores_location
    (lat1 lon1 lat2 lon2 : R) (mounting1 mounting2 : String.string)
    (capacity ratio : R) (days : Z) (now : datetime) (g : np.RandomState) :
  forecast (mkSimplePVForecast lat1 lon1 capacity mounting1 ratio) days now g
  = forecast (mkSimplePVForecast lat2 lon2 capacity mounting2 ratio) days now g.
Proof. reflexivity. Qed.

(** C7 (as amended).  [forecast] validates neither capacity nor
    performance ratio: for every real capacity and ratio, every valid
    generation instant and every positive [days] whose last timestamp does
    not exceed [datetime.max], it returns a series whose six columns have
    [days * 24] rows; when [capacity_kw * performance_ratio] is negative
    the power is negative at every row that is not at hour 0.  For larger
    [days] it raises [OverflowError]. *)
Theorem forecast_no_validation (self : SimplePVForecast) (days : Z)
    (now : datetime) (g : np.RandomState) :
  valid now -> (0 < days)%Z ->
  ((now + (days * 24 - 1) * us_per_hour <= datetime_max)%Z ->
   exists df g',
     forecast self days now g = Ok (df, g') /\
     nrows df = Z.to_nat (days * 24) /\
     length (forecast_power_kw df) = nrows df /\
     length (cloud_cover_percent df) = nrows df /\
     length (temperature_c df) = nrows df /\
     length (DNI df) = nrows df /\
     length (DHI df) = nrows df /\
     ((capacity_kw self * performance_ratio self < 0)%R ->
      forall i : nat, i < nrows df -> i mod 24 <> 0 ->
        (nth i (forecast_power_kw df) 0 < 0)%R)) /\
  ((datetime_max < now + (days * 24 - 1) * us_per_hour)%Z ->
   forecast self days now g = Raise OverflowError).
Proof.
  intros Hn Hd. split.
  - intros Hmax.
    assert (H : forecast self days now g
                = Ok (fst (series self days now g), snd (series self days now g)))
      by (apply forecast_ok_pair; [exact Hn | lia | intros _; exact Hmax]).
    exists (fst (series self days now g)), (snd (series self days now g)).
    split; [exact H|].
    assert (Hd0 : (0 <= days)%Z) by lia.
    pose proof (series_lengths self now g Hd0) as (L1 & L2 & L3 & L4 & L5 & L6).
    unfold nrows. rewrite L1, L2, L3, L4, L5, L6.
    repeat split; try reflexivity.
    intros Hneg i Hi Hh.
    assert (Hi' : i < nrows (fst (series self days now g)))
      by (unfold nrows; rewrite L1; exact Hi).
    rewrite (forecast_power_nth _ _ _ _ H Hi').
    assert (Hlt : i mod 24 < 24) by (apply Nat.mod_upper_bound; discriminate).
    rewrite daily_power_nth, clip_sin_hour by exact Hlt.
    assert (Hs : (0 < sin (hour_angle (i mod 24)))%R) by (apply sin_hour_pos; lia).
    nra.
  - intros Hover.
    apply forecast_overflow with (i := (days * 24 - 1)%Z); [lia | exact Hover].
Qed.

(** C7, the claim as stated fails: a positive [days] can make the call
    raise, here five million days for a plant with negative capacity. *)
Lemma forecast_five_million_days_raises :
  (0 < 5000000)%Z /\
  forecast negative_plant 5000000 example_now example_rng = Raise OverflowError.
Proof.
  split; [lia|].
  apply forecast_overflow with (i := 100000000%Z); [lia|].
  unfold example_now. datetime_lia.
Qed.

Lemma forecast_no_validation_witness :
  (exists df g',
     forecast negative_plant 1 example_now example_rng = Ok (df, g') /\
     nrows df = 24 /\
     (nth 12 (forecast_power_kw df) 0 < 0)%R) /\
  forecast negative_plant 4000000 example_now example_rng = Raise OverflowError.
Proof.
  split.
  - destruct (@forecast_no_validation negative_plant 1 example_now example_rng)
      as [Hok _].
    + apply example_now_valid.
    + lia.
    + destruct Hok as (df & g' & H & Hn & _ & _ & _ & _ & _ & Hneg).
      * unfold example_now. datetime_lia.
      * exists df, g'. change (Z.to_nat (1 * 24)) with 24 in Hn.
        split; [exact H|]. split; [exact Hn|].
        apply Hneg.
        -- cbn [capacity_kw performance_ratio negative_plant]. lra.
        -- lia.
        -- discriminate.
  - destruct (@forecast_no_validation negative_plant 4000000 example_now example_rng)
      as [_ Hover].
    + apply example_now_valid.
    + lia.
    + apply Hover. unfold example_now. datetime_lia.
Defined.

(** C9.  When the forecast raises, the submit handler leaves the stored
    series as it was (and reports the error, with the generator state
    untouched). *)
Theorem failed_forecast_keeps_session
    (lat lon : R) (capacity : Z) (mounting : String.string) (pr_percent : Z)
    (now : datetime) (g : np.RandomState) (st : session_state) (e : exn) :
  forecast (mkSimplePVForecast lat lon (IZR capacity) mounting
              (IZR pr_percent / 100)) 14 now g = Raise e ->
  on_submit lat lon capacity mounting pr_percent now g st = (st, Error e, g).
Proof.
  intros H. unfold on_submit; cbv zeta. rewrite H. reflexivity.
Qed.

Lemma late_forecast_raises (self : SimplePVForecast) (g : np.RandomState) :
  forecast self 14 late_now g = Raise OverflowError.
Proof.
  apply forecast_overflow with (i := 12%Z); [lia|].
  unfold late_now. datetime_lia.
Qed.

Lemma failed_forecast_keeps_session_witness :
  on_submit (482 / 10) (164 / 10) 10 "Flachdach" 85 late_now example_rng None
  = (None, Error OverflowError, example_rng).
Proof.
  apply (@failed_forecast_keeps_session (482 / 10) (164 / 10) 10 "Flachdach" 85
           late_now example_rng None OverflowError).
  apply late_forecast_raises.
Defined.

(** C10.  [forecast] with [days = 0] does not raise and returns the empty
    series, with 0 rows, without consuming the generator. *)
Theorem forecast_zero_days (self : SimplePVForecast)
    (now : datetime) (g : np.RandomState) :
  forecast self 0 now g = Ok (mkDataFrame [] [] [] [] [] [], g) /\
  nrows (mkDataFrame [] [] [] [] [] []) = 0.
Proof. split; reflexivity. Qed.


(** * Further properties of the generator and of the page *)

(** A negative day count is refused: no timestamp is built, and [np.tile]
    raises [ValueError] for the negative repetition count. *)
Theorem forecast_negative_days_raises (self : SimplePVForecast) (days : Z)
    (now : datetime) (g : np.RandomState) :
  (days < 0)%Z -> forecast self days now g = Raise ValueError.
Proof.
  intros Hd. unfold forecast; cbv zeta.
  assert (Hr : range (days * 24) = []).
  { unfold range. replace (Z.to_nat (days * 24)) with 0 by lia. reflexivity. }
  rewrite Hr. cbn [mapM bind]. unfold np.tile.
  replace (days <? 0)%Z with true by (symmetry; apply Z.ltb_lt; exact Hd).
  reflexivity.
Qed.

Lemma forecast_negative_days_raises_witness :
  forecast example_plant (-1) example_now example_rng = Raise ValueError.
Proof.
  apply (@forecast_negative_days_raises example_plant (-1) example_now example_rng).
  lia.
Defined.

(** For a positive day count the only failure is the datetime range:
    the call succeeds exactly when the last timestamp
    [now + (24 * days - 1) h] is representable, and raises
    [OverflowError] otherwise. *)
Theorem forecast_succeeds_iff (self : SimplePVForecast) (days : Z)
    (now : datetime) (g : np.RandomState) :
  valid now -> (0 < days)%Z ->
  ((exists r, forecast self days now g = Ok r)
   <-> (now + (days * 24 - 1) * us_per_hour <= datetime_max)%Z) /\
  ((datetime_max < now + (days * 24 - 1) * us_per_hour)%Z ->
   forecast self days now g = Raise OverflowError).
Proof.
  intros Hn Hd.
  assert (Hover : (datetime_max < now + (days * 24 - 1) * us_per_hour)%Z ->
                  forecast self days now g = Raise OverflowError).
  { intros H. apply forecast_overflow with (i := (days * 24 - 1)%Z); [lia | exact H]. }
  split; [split | exact Hover].
  - intros [r Hr].
    destruct (Z.le_gt_cases (now + (days * 24 - 1) * us_per_hour) datetime_max)
      as [Hle|Hgt]; [exact Hle|].
    rewrite (Hover Hgt) in Hr. discriminate.
  - intros Hle. exists (series self days now g).
    apply forecast_ok; [exact Hn | lia | intros _; exact Hle].
Qed.

Lemma forecast_succeeds_iff_witness :
  (exists r, forecast example_plant 14 example_now example_rng = Ok r)
  <-> (example_now + (14 * 24 - 1) * us_per_hour <= datetime_max)%Z.
Proof.
  apply (@forecast_succeeds_iff example_plant 14 example_now example_rng).
  - apply example_now_valid.
  - lia.
Defined.

(** The power column is a function of the plant and of the day count
    alone: neither the generator state nor the generation instant of a
    run changes it. *)
Theorem power_independent_of_draws (self : SimplePVForecast) (days : Z)
    (now1 now2 : datetime) (g1 g2 g1' g2' : np.RandomState)
    (df1 df2 : DataFrame) :
  forecast self days now1 g1 = Ok (df1, g1') ->
  forecast self days now2 g2 = Ok (df2, g2') ->
  forecast_power_kw df1 = forecast_power_kw df2.
Proof.
  intros H1 H2.
  apply forecast_inv_frame in H1 as (-> & _ & _).
  apply forecast_inv_frame in H2 as (-> & _ & _).
  rewrite !series_power. reflexivity.
Qed.

Lemma late_one_day :
  forecast example_plant 1 (example_now + us_per_day)%Z
    (np.mkRandomState (np.tape example_rng) 500)
  = Ok (fst (series example_plant 1 (example_now + us_per_day)%Z
               (np.mkRandomState (np.tape example_rng) 500)),
        snd (series example_plant 1 (example_now + us_per_day)%Z
               (np.mkRandomState (np.tape example_rng) 500))).
Proof.
  apply forecast_ok_pair.
  - unfold example_now, us_per_day. datetime_lia.
  - lia.
  - intros _. unfold example_now, us_per_day. datetime_lia.
Qed.

Lemma power_independent_of_draws_witness :
  forecast_power_kw (fst (series example_plant 1 example_now example_rng))
  = forecast_power_kw
      (fst (series example_plant 1 (example_now + us_per_day)%Z
              (np.mkRandomState (np.tape example_rng) 500))).
Proof.
  exact (@power_independent_of_draws _ _ _ _ _ _ _ _ _ _
           example_one_day late_one_day).
Defined.

(** Conversely the weather columns and the generator state after the run
    depend on the generator state and the day count only: neither the
    plant nor the generation instant of a run changes them. *)
Theorem weather_independent_of_plant (plant1 plant2 : SimplePVForecast)
    (days : Z) (now1 now2 : datetime) (g g1' g2' : np.RandomState)
    (df1 df2 : DataFrame) :
  forecast plant1 days now1 g = Ok (df1, g1') ->
  forecast plant2 days now2 g = Ok (df2, g2') ->
  cloud_cover_percent df1 = cloud_cover_percent df2 /\
  temperature_c df1 = temperature_c df2 /\
  DNI df1 = DNI df2 /\ DHI df1 = DHI df2 /\ g1' = g2'.
Proof.
  intros H1 H2.
  apply forecast_inv in H1 as (E1 & _ & _).
  apply forecast_inv in H2 as (E2 & _ & _).
  unfold series in E1, E2; cbv zeta in E1, E2.
  destruct (np.draw (np.randint1 0 100) _ g) as [cloud s1].
  destruct (np.draw (np.uniform1 0 30) _ s1) as [temperature s2].
  destruct (np.draw (np.uniform1 0 1000) _ s2) as [dni s3].
  destruct (np.draw (np.uniform1 0 500) _ s3) as [dhi s4].
  injection E1 as -> ->. injection E2 as -> ->.
  repeat split; reflexivity.
Qed.

Lemma negative_next_day :
  forecast negative_plant 1 (example_now + us_per_day)%Z example_rng
  = Ok (fst (series negative_plant 1 (example_now + us_per_day)%Z example_rng),
        snd (series negative_plant 1 (example_now + us_per_day)%Z example_rng)).
Proof.
  apply forecast_ok_pair.
  - unfold example_now, us_per_day. datetime_lia.
  - lia.
  - intros _. unfold example_now, us_per_day. datetime_lia.
Qed.

Lemma weather_independent_of_plant_witness :
  cloud_cover_percent (fst (series example_plant 1 example_now example_rng))
  = cloud_cover_percent
      (fst (series negative_plant 1 (example_now + us_per_day)%Z example_rng)).
Proof.
  exact (proj1 (@weather_independent_of_plant _ _ _ _ _ _ _ _ _ _
                  example_one_day negative_next_day)).
Defined.

Lemma INR_le_const (h k : nat) : h <= k -> (INR h <= IZR (Z.of_nat k))%R.
Proof. intros H. rewrite INR_IZR_INZ. apply IZR_le. lia. Qed.

Lemma INR_ge_const (h k : nat) : k <= h -> (IZR (Z.of_nat k) <= INR h)%R.
Proof. intros H. rewrite INR_IZR_INZ. apply IZR_le. lia. Qed.

(** The sine on the grid rises strictly up to hour 11 and falls strictly
    from hour 12 on. *)
Lemma sin_hour_monotone (h1 h2 : nat) :
  h1 < h2 -> h2 < 24 ->
  (h2 <= 11 -> (sin (hour_angle h1) < sin (hour_angle h2))%R) /\
  (12 <= h1 -> (sin (hour_angle h2) < sin (hour_angle h1))%R).
Proof.
  intros H12 H2. pose proof pi_lt_PI as P1. pose proof PI_lt_pi as P2.
  pose proof (pos_INR h1) as N1. pose proof (lt_INR _ _ H12) as L.
  split; intros Hb.
  - pose proof (INR_le_const Hb) as U. cbn [Z.of_nat Pos.of_succ_nat Pos.succ] in U.
    apply sin_increasing_1; unfold hour_angle, np.pi in *; lra.
  - pose proof (INR_ge_const Hb) as U. cbn [Z.of_nat Pos.of_succ_nat Pos.succ] in U.
    assert (H2' : h2 <= 23) by lia.
    pose proof (INR_le_const H2') as V. cbn [Z.of_nat Pos.of_succ_nat Pos.succ] in V.
    apply sin_decreasing_1; unfold hour_angle, np.pi in *; lra.
Qed.

(** Within a generated series of a plant with positive
    [capacity_kw * performance_ratio], the power rises strictly with the
    hour of day up to hour 11 and falls strictly from hour 12 to hour 23. *)
Theorem daily_shape_unimodal (self : SimplePVForecast) (days : Z)
    (now : datetime) (g g' : np.RandomState) (df : DataFrame) (i j : nat) :
  forecast self days now g = Ok (df, g') ->
  (0 < capacity_kw self * performance_ratio self)%R ->
  i < nrows df -> j < nrows df -> i mod 24 < j mod 24 ->
  (j mod 24 <= 11 ->
   (nth i (forecast_power_kw df) 0 < nth j (forecast_power_kw df) 0)%R) /\
  (12 <= i mod 24 ->
   (nth j (forecast_power_kw df) 0 < nth i (forecast_power_kw df) 0)%R).
Proof.
  intros H Hpeak Hi Hj Hij.
  assert (Hj24 : j mod 24 < 24) by (apply Nat.mod_upper_bound; discriminate).
  rewrite (forecast_power_nth _ _ _ _ H Hi), (forecast_power_nth _ _ _ _ H Hj).
  rewrite !daily_power_nth, !clip_sin_hour by lia.
  destruct (sin_hour_monotone Hij Hj24) as [Hup Hdown].
  split; intros Hb; [specialize (Hup Hb) | specialize (Hdown Hb)];
    apply Rmult_lt_compat_l; assumption.
Qed.

Lemma example_peak_positive :
  (0 < capacity_kw example_plant * performance_ratio example_plant)%R.
Proof. cbn [capacity_kw performance_ratio example_plant]. lra. Qed.

Lemma example_one_day_rows :
  nrows (fst (series example_plant 1 example_now example_rng)) = 24.
Proof.
  pose proof (forecast_inv_frame _ _ _ _ example_one_day) as (_ & _ & Hn).
  exact Hn.
Qed.

Lemma daily_shape_unimodal_witness :
  let p := forecast_power_kw (fst (series example_plant 1 example_now example_rng)) in
  (nth 3 p 0 < nth 9 p 0)%R /\ (nth 20 p 0 < nth 14 p 0)%R.
Proof.
  cbv zeta. split.
  - apply (@daily_shape_unimodal _ _ _ _ _ _ 3 9 example_one_day example_peak_positive);
      rewrite ?example_one_day_rows; cbn; lia.
  - apply (@daily_shape_unimodal _ _ _ _ _ _ 14 20 example_one_day example_peak_positive);
      rewrite ?example_one_day_rows; cbn; lia.
Defined.

(** When [capacity_kw * performance_ratio] is not zero, the power of a
    generated series vanishes at the rows of hour 0 and nowhere else: the
    last hour of each day keeps a non-zero value. *)
Theorem power_zero_iff_hour_zero (self : SimplePVForecast) (days : Z)
    (now : datetime) (g g' : np.RandomState) (df : DataFrame) (i : nat) :
  forecast self days now g = Ok (df, g') ->
  (capacity_kw self * performance_ratio self <> 0)%R ->
  i < nrows df ->
  (nth i (forecast_power_kw df) 0%R = 0%R <-> i mod 24 = 0).
Proof.
  intros H Hpeak Hi.
  assert (Hh : i mod 24 < 24) by (apply Nat.mod_upper_bound; discriminate).
  rewrite (forecast_power_nth _ _ _ _ H Hi).
  rewrite daily_power_nth, clip_sin_hour by exact Hh.
  split.
  - intros E. destruct (Nat.eq_dec (i mod 24) 0) as [E0|N0]; [exact E0|].
    assert (Hs : (0 < sin (hour_angle (i mod 24)))%R) by (apply sin_hour_pos; lia).
    apply Rmult_integral in E. destruct E as [E|E]; [contradiction | lra].
  - intros ->. unfold hour_angle. simpl INR. rewrite Rmult_0_l, sin_0. lra.
Qed.

Lemma power_zero_iff_hour_zero_witness :
  nth 23 (forecast_power_kw
            (fst (series example_plant 1 example_now example_rng))) 0%R = 0%R
  <-> 23 mod 24 = 0.
Proof.
  apply (@power_zero_iff_hour_zero _ _ _ _ _ _ 23 example_one_day).
  - cbn [capacity_kw performance_ratio example_plant]. lra.
  - rewrite example_one_day_rows. lia.
Defined.

(** The timestamps of a generated series are valid datetimes and strictly
    increasing along the rows (hence pairwise distinct). *)
Theorem timestamps_sorted_valid (self : SimplePVForecast) (days : Z)
    (now : datetime) (g g' : np.RandomState) (df : DataFrame) :
  forecast self days now g = Ok (df, g') ->
  (forall i : nat, i < nrows df -> valid (nth i (time df) 0%Z)) /\
  (forall i j : nat, i < j -> j < nrows df ->
     (nth i (time df) 0 < nth j (time df) 0)%Z).
Proof.
  intros H. pose proof (forecast_inv_frame _ _ _ _ H) as (Hdf & Hd & Hn).
  pose proof (forecast_inv _ _ _ _ H) as (_ & _ & Hvalid).
  assert (Hnth : forall i : nat, i < nrows df ->
            nth i (time df) 0%Z = (now + Z.of_nat i * us_per_hour)%Z).
  { intros i Hi. rewrite Hdf, series_time.
    set (F := fun i : Z => (now + i * us_per_hour)%Z).
    assert (Hlen : i < Z.to_nat (days * 24)) by lia.
    rewrite (nth_indep _ 0%Z (F 0%Z)) by (rewrite length_map, range_length; exact Hlen).
    rewrite map_nth, range_nth by exact Hlen. reflexivity. }
  split.
  - intros i Hi. rewrite (Hnth i Hi). apply Hvalid. lia.
  - intros i j Hij Hj. rewrite !Hnth by lia.
    destruct datetime_constants as (Hh & _). rewrite Hh. lia.
Qed.

Lemma timestamps_sorted_valid_witness :
  let t := time (fst (series example_plant 1 example_now example_rng)) in
  valid (nth 23 t 0%Z) /\ (nth 2 t 0 < nth 17 t 0)%Z.
Proof.
  cbv zeta.
  destruct (timestamps_sorted_valid _ _ _ _ example_one_day) as (Hv & Hs).
  split.
  - apply Hv. rewrite example_one_day_rows. lia.
  - apply Hs; [lia|]. rewrite example_one_day_rows. lia.
Defined.

(** ** The submit handler and the statistics *)

(** Every row of a generated series is bounded by the rows of hours 11
    and 12 of the first day, for a positive
    [capacity_kw * performance_ratio]. *)
Lemma power_le_noon_rows (self : SimplePVForecast) (days : Z)
    (now : datetime) (g g' : np.RandomState) (df : DataFrame) (i : nat) :
  forecast self days now g = Ok (df, g') ->
  (0 < capacity_kw self * performance_ratio self)%R ->
  i < nrows df ->
  (nth i (forecast_power_kw df) 0
   <= Rmax (nth 11 (forecast_power_kw df) 0) (nth 12 (forecast_power_kw df) 0))%R.
Proof.
  intros H Hpeak Hi.
  assert (Hh : i mod 24 < 24) by (apply Nat.mod_upper_bound; discriminate).
  assert (Hrows : 12 < nrows df) by
    (pose proof (forecast_inv_frame _ _ _ _ H) as (_ & _ & Hn); lia).
  rewrite (forecast_power_nth (i := i) _ _ _ _ H) by exact Hi.
  rewrite (forecast_power_nth (i := 11) _ _ _ _ H) by lia.
  rewrite (forecast_power_nth (i := 12) _ _ _ _ H) by lia.
  change (11 mod 24) with 11. change (12 mod 24) with 12.
  rewrite !daily_power_nth by lia.
  rewrite !clip_sin_hour by lia.
  rewrite RmaxRmult by lra.
  apply Rmult_le_compat_l; [lra | apply sin_hour_peak; exact Hh].
Qed.

Lemma fold_left_Rmax_spec (xs : list R) (x : R) :
  let m := fold_left Rmax xs x in
  (m = x \/ In m xs) /\ (x <= m)%R /\ Forall (fun y => (y <= m)%R) xs.
Proof.
  revert x. induction xs as [|y ys IH]; intros x; cbn [fold_left].
  - repeat split; [left; reflexivity | lra | constructor].
  - specialize (IH (Rmax x y)). cbv zeta in IH.
    destruct IH as (Hin & Hle & Hall).
    pose proof (Rmax_l x y). pose proof (Rmax_r x y).
    repeat split.
    + destruct Hin as [E|Hin]; [|right; right; exact Hin].
      rewrite E. unfold Rmax. destruct (Rle_dec x y);
        [right; left; reflexivity | left; reflexivity].
    + lra.
    + constructor; [lra | exact Hall].
Qed.

Lemma Series_max_spec (a : list R) (m : R) :
  Series_max a = Some m -> In m a /\ Forall (fun y => (y <= m)%R) a.
Proof.
  destruct a as [|x xs]; cbn [Series_max]; [discriminate|].
  intros E; injection E as <-.
  destruct (fold_left_Rmax_spec xs x) as (Hin & Hle & Hall).
  split; [destruct Hin as [->|Hin]; [left; reflexivity | right; exact Hin]|].
  constructor; assumption.
Qed.

Lemma Series_max_nonempty (a : list R) :
  a <> [] -> exists m, Series_max a = Some m.
Proof.
  destruct a as [|x xs]; [congruence|].
  intros _. eexists. reflexivity.
Qed.

(** The maximal power shown for a generated series of at least one day,
    for a positive [capacity_kw * performance_ratio], is the larger of
    the values at hours 11 and 12 of the first day. *)
Theorem max_power_shown (self : SimplePVForecast) (days : Z)
    (now : datetime) (g g' : np.RandomState) (df : DataFrame) :
  forecast self days now g = Ok (df, g') ->
  (0 < days)%Z ->
  (0 < capacity_kw self * performance_ratio self)%R ->
  max_power (show_statistics df)
  = Some (Rmax (nth 11 (forecast_power_kw df) 0%R)
               (nth 12 (forecast_power_kw df) 0%R)).
Proof.
  intros H Hd Hpeak.
  pose proof (forecast_inv_frame _ _ _ _ H) as (Hdf & _ & Hn).
  assert (Hlen : length (forecast_power_kw df) = nrows df).
  { rewrite Hdf. unfold nrows.
    rewrite series_power, series_time, tile_nat_length, daily_power_length,
      length_map, range_length. lia. }
  assert (Hrows : 24 <= nrows df) by lia.
  assert (Hne : forecast_power_kw df <> []).
  { intros E. rewrite E in Hlen. cbn in Hlen. lia. }
  unfold show_statistics; cbn [max_power].
  destruct (Series_max_nonempty Hne) as [m Hm]. rewrite Hm. f_equal.
  destruct (Series_max_spec _ Hm) as (Hin & Hall).
  apply Rle_antisym.
  - apply (In_nth _ _ 0%R) in Hin. destruct Hin as (k & Hk & <-).
    apply (@power_le_noon_rows self days now g g' df k H Hpeak). lia.
  - rewrite Forall_forall in Hall.
    apply Rmax_lub; apply Hall; apply nth_In; lia.
Qed.

Lemma max_power_shown_witness :
  let p := forecast_power_kw
             (fst (series example_plant 14 example_now example_rng)) in
  max_power (show_statistics
               (fst (series example_plant 14 example_now example_rng)))
  = Some (Rmax (nth 11 p 0%R) (nth 12 p 0%R)).
Proof.
  cbv zeta.
  apply (@max_power_shown _ _ _ _ _ _ example_default_days).
  - lia.
  - apply example_peak_positive.
Defined.

Lemma cloud_sum_bounds (l : list Z) :
  Forall (fun c => (0 <= c < 100)%Z) l ->
  (0 <= fold_right Z.add 0 l <= 99 * Z.of_nat (length l))%Z.
Proof.
  induction 1 as [|c l Hc _ IH]; cbn [fold_right length]; lia.
Qed.

(** For a generated series of at least one day the mean cloud cover
    shown lies in [0, 99], so the share reported as sunny lies in
    [1, 100]. *)
Theorem cloud_statistics (self : SimplePVForecast) (days : Z)
    (now : datetime) (g g' : np.RandomState) (df : DataFrame) :
  forecast self days now g = Ok (df, g') ->
  (0 < days)%Z ->
  exists c : R,
    cloud_avg (show_statistics df) = Some c /\
    sunny (show_statistics df) = Some (100 - c)%R /\
    (0 <= c <= 99)%R /\ (1 <= 100 - c <= 100)%R.
Proof.
  intros H Hd.
  pose proof (forecast_inv_frame _ _ _ _ H) as (Hdf & Hd0 & Hn).
  pose proof (series_weather self days now g) as (W & _).
  pose proof (series_lengths self now g Hd0) as (_ & _ & L & _).
  cbv zeta in W, L. rewrite <- Hdf in W, L.
  assert (Hlen : 0 < length (cloud_cover_percent df)) by lia.
  pose proof (cloud_sum_bounds W) as [Hb0 Hb1].
  apply IZR_le in Hb0, Hb1.
  rewrite mult_IZR, <- INR_IZR_INZ in Hb1.
  assert (Hpos : (0 < INR (length (cloud_cover_percent df)))%R)
    by (apply lt_0_INR; exact Hlen).
  exists (IZR (fold_right Z.add 0%Z (cloud_cover_percent df))
          / INR (length (cloud_cover_percent df)))%R.
  unfold show_statistics; cbn [cloud_avg sunny].
  assert (Hmean : Series_mean_int (cloud_cover_percent df)
                  = Some (IZR (fold_right Z.add 0%Z (cloud_cover_percent df))
                          / INR (length (cloud_cover_percent df)))%R).
  { destruct (cloud_cover_percent df); [cbn in Hlen; lia | reflexivity]. }
  rewrite Hmean. cbn [option_map].
  split; [reflexivity|]. split; [reflexivity|].
  set (n := INR (length (cloud_cover_percent df))) in *.
  set (s := IZR (fold_right Z.add 0%Z (cloud_cover_percent df))) in *.
  assert (Hq : (0 <= s / n <= 99)%R).
  { split.
    - apply Rmult_le_pos; [lra | apply Rlt_le, Rinv_0_lt_compat; exact Hpos].
    - apply Rmult_le_reg_r with n; [exact Hpos|].
      unfold Rdiv. rewrite Rmult_assoc, Rinv_l by lra. lra. }
  lra.
Qed.

Lemma cloud_statistics_witness :
  exists c : R,
    cloud_avg (show_statistics
                 (fst (series example_plant 14 example_now example_rng))) = Some c /\
    (0 <= c <= 99)%R.
Proof.
  destruct (@cloud_statistics _ _ _ _ _ _ example_default_days) as (c & Hc & _ & Hr & _).
  - lia.
  - exists c. split; assumption.
Defined.

(** A submission with values the form can produce (capacity 1..50 kWp,
    performance ratio 70..90 %), at an instant that leaves room for 336
    hourly timestamps, never fails: whatever was stored before, the
    handler stores a fresh series of 336 rows, reports success, and every
    power value lies between 0 and
    [capacity * pr_percent / 100 <= 45] kW. *)
Theorem submit_stores_full_series
    (lat lon : R) (capacity : Z) (mounting : String.string) (pr_percent : Z)
    (now : datetime) (g : np.RandomState) (st : session_state) :
  valid now -> (now + 335 * us_per_hour <= datetime_max)%Z ->
  (1 <= capacity <= 50)%Z -> (70 <= pr_percent <= 90)%Z ->
  exists df g',
    on_submit lat lon capacity mounting pr_percent now g st
    = (Some df, Success, g') /\
    nrows df = 336 /\
    forall i : nat, i < 336 ->
      (0 <= nth i (forecast_power_kw df) 0
       <= IZR capacity * (IZR pr_percent / 100))%R /\
      (IZR capacity * (IZR pr_percent / 100) <= 45)%R.
Proof.
  intros Hn Hmax Hc Hp.
  set (model := mkSimplePVForecast lat lon (IZR capacity) mounting
                  (IZR pr_percent / 100)).
  assert (H : forecast model 14 now g
              = Ok (fst (series model 14 now g), snd (series model 14 now g)))
    by (apply forecast_ok_pair; [exact Hn | lia | intros _; exact Hmax]).
  exists (fst (series model 14 now g)), (snd (series model 14 now g)).
  pose proof (forecast_inv_frame _ _ _ _ H) as (_ & _ & Hrows).
  change (Z.to_nat 14 * 24) with 336 in Hrows.
  split; [|split; [exact Hrows|]].
  - unfold on_submit; cbv zeta. fold model. rewrite H. reflexivity.
  - intros i Hi.
    assert (Hi' : i < nrows (fst (series model 14 now g))) by (rewrite Hrows; exact Hi).
    assert (Hh : i mod 24 < 24) by (apply Nat.mod_upper_bound; discriminate).
    rewrite (forecast_power_nth _ _ _ _ H Hi'), daily_power_nth by exact Hh.
    subst model. cbn [capacity_kw performance_ratio].
    pose proof (clip1_unit (sin (hour_angle (i mod 24)))) as Hu.
    assert (Hc' : (1 <= IZR capacity <= 50)%R) by (split; apply IZR_le; lia).
    assert (Hp' : (70 <= IZR pr_percent <= 90)%R) by (split; apply IZR_le; lia).
    assert (Hq : (0 < IZR capacity * (IZR pr_percent / 100) <= 45)%R) by nra.
    set (q := (IZR capacity * (IZR pr_percent / 100))%R) in *.
    split; [split|]; nra.
Qed.

Lemma submit_stores_full_series_witness :
  exists df g',
    on_submit (482 / 10) (164 / 10) 10 "Flachdach" 85 example_now example_rng None
    = (Some df, Success, g') /\ nrows df = 336.
Proof.
  destruct (@submit_stores_full_series (482 / 10) (164 / 10) 10 "Flachdach" 85
              example_now example_rng None)
    as (df & g' & H & Hn & _).
  - apply example_now_valid.
  - unfold example_now. datetime_lia.
  - lia.
  - lia.
  - exists df, g'. split; assumption.
Defined.
